(** * Run selection from the DL1 data-check tables

    A shallow embedding of [notebooks/data_selection.ipynb]: the night-wise
    files and the loading loop, the boolean masks built over the run summary,
    the reporting function [print_runs] and the subrun-wise cut on the rate of
    pulses above 30 p.e.

    A float column of a table is [float32] or [float64]: the files store
    a column without NaN in single precision, one with a NaN in double
    precision, and [vstack] gives a stacked column the wider of the types it
    meets.  A number of either type is held in a binary64 float, every
    single-precision number being one; arithmetic on columns is done in the
    precision numpy does it in, and comparisons are exact.  An operation of
    a numpy scalar with a Python number is taken in double precision, as
    numpy does it before version 2.  numpy arrays are sequences, a boolean
    array is a [bitseq], [a & b] is the element-wise conjunction and
    [col[m]] is [mask m col].  Run numbers and dates are natural numbers. *)

From Stdlib Require List.
From Stdlib Require Import PrimFloat SpecFloat FloatOps FloatAxioms BinInt PArith.
From mathcomp Require Import ssreflect ssrfun ssrbool eqtype ssrnat seq path.

Set Implicit Arguments.
Unset Strict Implicit.
Unset Printing Implicit Defensive.
Set Warnings "-inexact-float".

Local Open Scope float_scope.
Local Open Scope seq_scope.

(** ** numpy on one-dimensional arrays *)

(** The two float types of the columns. *)
Inductive dtype := float32 | float64.

(** The text of a one-dimensional array of integers. *)
Inductive array_text :=
  | Entries (a : seq nat)                 (* "[a0, a1, ..., an]", every entry *)
  | Edges (leading trailing : seq nat).   (* "[a0, a1, a2, ..., x, y, z]" *)


Module np.

(** [np.promote_types]: the type of the result of an operation on two
    float columns. *)
Definition promote_types (a b : dtype) : dtype :=
  if a is float32 then b else float64.

(** The IEEE 754 format of a type: the precision and the exponent bound. *)
Definition prec (d : dtype) : Z := if d is float32 then 24%Z else 53%Z.
Definition emax (d : dtype) : Z := if d is float32 then 128%Z else 1024%Z.

(** An operation of the format of [d], rounded to nearest-even, on numbers
    held in doubles. *)
Definition ieee (op : Z -> Z -> spec_float -> spec_float -> spec_float)
    (d : dtype) (x y : float) : float :=
  SF2Prim (op (prec d) (emax d) (Prim2SF x) (Prim2SF y)).

(** The loops of the ufuncs [*], [/], [-] and [+] for the type [d]: on
    [float64] the operation of the machine, on [float32] the one of single
    precision. *)
Definition multiply (d : dtype) (x y : float) : float :=
  if d is float64 then x * y else ieee SFmul float32 x y.
Definition true_divide (d : dtype) (x y : float) : float :=
  if d is float64 then x / y else ieee SFdiv float32 x y.
Definition subtract (d : dtype) (x y : float) : float :=
  if d is float64 then x - y else ieee SFsub float32 x y.
Definition add (d : dtype) (x y : float) : float :=
  if d is float64 then x + y else ieee SFadd float32 x y.
Definition sqrt (d : dtype) (x : float) : float :=
  if d is float64 then PrimFloat.sqrt x
  else SF2Prim (SFsqrt (prec float32) (emax float32) (Prim2SF x)).

(** [np.isnan] and [np.isfinite], entry by entry. *)
Definition isnan (x : float) : bool := is_nan x.
Definition isfinite (x : float) : bool := is_finite x.

(** [np.rad2deg x] is [x * RAD2DEG], where [RAD2DEG] is [180.0 / NPY_PI]
    computed in the type of [x], [NPY_PI] being pi rounded to that type. *)
Definition PI (d : dtype) : float :=
  if d is float32 then 0x1.921fb6p+1 else 0x1.921fb54442d18p+1.
Definition RAD2DEG (d : dtype) : float := true_divide d 180 (PI d).
Definition rad2deg (d : dtype) (x : float) : float := multiply d x (RAD2DEG d).

(** [a & b] on boolean arrays of one shape. *)
Definition and_ (a b : bitseq) : bitseq := [seq x.1 && x.2 | x <- zip a b].

(** [~a]. *)
Definition invert (a : bitseq) : bitseq := [seq ~~ x | x <- a].

(** [a.sum()] of a boolean array: the number of [True] entries. *)
Definition sum_bool (a : bitseq) : nat := count id a.

(** [np.array(n * [True])]. *)
Definition full_true (n : nat) : bitseq := nseq n true.

(** [a[sel] = False]: the entries of [a] that [sel] marks become [False]. *)
Definition assign_false (a sel : bitseq) : bitseq :=
  [seq if x.2 then false else x.1 | x <- zip a sel].

(** [col[m]] raises [IndexError] unless the boolean index has the length of
    the column; [None] stands for the exception. *)
Definition getitem (T : Type) (col : seq T) (m : bitseq) : option (seq T) :=
  if size m == size col then Some (mask m col) else None.

(** [np.unique] of a list of dates: the distinct values, ascending. *)
Definition unique (s : seq nat) : seq nat := sort leq (undup s).

(** [np.array2string(a, separator=', ')], and [str(a)], under the print
    options numpy starts with ([threshold=1000], [edgeitems=3]): an array of
    more than 1000 entries is summarised to its first three and its last
    three. *)
Definition threshold : nat := 1000.
Definition edgeitems : nat := 3.
Definition array2string (a : seq nat) : array_text :=
  if threshold < size a then
    Edges (take edgeitems a) (drop (size a - edgeitems) a)
  else Entries a.

End np.

Infix "&&&" := np.and_ (at level 40, left associativity).

(** ** The tables of a night-wise file *)

(** One row of [/runsummary/table]: the columns the notebook reads in a
    cut or in [print_runs]; the remaining columns are only plotted. *)
Record RunRow := mkRunRow {
  runnumber : nat;
  time : float;
  elapsed_time : float;
  mean_ra : float;
  mean_dec : float;
  mean_altitude : float;
  min_altitude : float;
  num_cosmics : float;
  num_pedestals : float;
  num_flatfield : float;
  ped_charge_stddev : float;
  cosmics_fraction_pulses_above10 : float;
  cosmics_fraction_pulses_above30 : float;
  other_columns : seq float
}.

(** The two values of [npe] in [for npe in [10, 30]]. *)
Inductive npe := npe10 | npe30.

Module Cosmics.
(** One row of [/cosmics/table]: a subrun. *)
Record row := mk {
  runnumber : nat;
  fraction_pulses_above10 : float;
  fraction_pulses_above30 : float;
  events : float;
  elapsed_time : float
}.

(** [dcheck_cosmics[f'fraction_pulses_above{npe}']]. *)
Definition fraction_pulses_above (n : npe) (c : row) : float :=
  if n is npe10 then fraction_pulses_above10 c else fraction_pulses_above30 c.
End Cosmics.

(** The types of the float columns that enter an arithmetic operation, as
    the stacked tables have them: five columns of the run summary and four
    of the subrun-wise cosmics table. *)
Record Dtypes := mkDtypes {
  min_altitude_dtype : dtype;
  num_cosmics_dtype : dtype;
  elapsed_time_dtype : dtype;
  cosmics_fraction_pulses_above10_dtype : dtype;
  cosmics_fraction_pulses_above30_dtype : dtype;
  subrun_fraction_pulses_above10_dtype : dtype;
  subrun_fraction_pulses_above30_dtype : dtype;
  subrun_events_dtype : dtype;
  subrun_elapsed_time_dtype : dtype
}.

Definition subrun_fraction_pulses_above_dtype (D : Dtypes) (n : npe) : dtype :=
  if n is npe10 then subrun_fraction_pulses_above10_dtype D
  else subrun_fraction_pulses_above30_dtype D.

(** A row of a table the notebook only stacks ([pixwise_runsummary],
    [flatfield], [pedestals]). *)
Record AuxRow := mkAuxRow {
  aux_runnumber : nat;
  aux_columns : seq float
}.

(** A night-wise file that holds the three tables the loop reads without a
    test ([read_table] raises on a file that lacks one of them, and the
    loading cell with it).  The [pedestals] and [flatfield] nodes are the
    two the loop tests for. *)
Record NightFile := mkNightFile {
  f_pixwise_runsummary : seq AuxRow;
  f_runsummary : seq RunRow;
  f_cosmics : seq Cosmics.row;
  f_flatfield : option (seq AuxRow);
  f_pedestals : option (seq AuxRow)
}.

(** ** Library calls whose results the notebook only consumes

    The summations of numpy, the coordinate and ephemeris computations of
    astropy and astroplan and the calendar arithmetic of [datetime] are
    outside the notebook; it reads their results. *)
Record Externals := mkExternals {
  (** [table['elapsed_time'][mask].sum()], the sum of the selected entries
      in the precision of that column *)
  np_sum : seq float -> float;
  (** [np.std(a)] of an array of the given type *)
  np_std : dtype -> seq float -> float;
  (** [source_coordinates.separation(SkyCoord(ra=ra*u.deg, dec=dec*u.deg))],
      in degrees *)
  separation : float -> float -> float;
  (** altitude in degrees of [get_moon] at the time stamp, in the [AltAz]
      frame of the telescope *)
  moon_altitude : float -> float;
  (** [moon_illumination] at the time stamp *)
  moon_illumination : float -> float;
  (** [datetime.utcfromtimestamp(t).date()], a date being the number of its
      day; [None] where [utcfromtimestamp] raises (a time stamp that is not
      finite or is out of range) *)
  utc_date : float -> option nat
}.

(** ** Loading and stacking (the cell that fills the tables) *)

(** [vstack] of a list of tables: the rows in order; astropy raises
    [ValueError] on an empty list. *)
Definition vstack (T : Type) (tables : seq (seq T)) : option (seq T) :=
  if tables is [::] then None else Some (flatten tables).

(** Writing one entry of the [num_flatfield] column. *)
Definition set_num_flatfield (v : float) (r : RunRow) : RunRow :=
  mkRunRow (runnumber r) (time r) (elapsed_time r) (mean_ra r) (mean_dec r)
    (mean_altitude r) (min_altitude r) (num_cosmics r) (num_pedestals r)
    v
    (ped_charge_stddev r) (cosmics_fraction_pulses_above10 r)
    (cosmics_fraction_pulses_above30 r) (other_columns r).

(** [table['num_flatfield'] = np.where(np.isnan(...), 0, ...)], row by row. *)
Definition nan_to_zero (r : RunRow) : RunRow :=
  set_num_flatfield
    (if np.isnan (num_flatfield r) then 0 else num_flatfield r) r.

(** The five Python lists the loop appends to. *)
Record Lists := mkLists {
  l_pixwise_runsummary : seq (seq AuxRow);
  l_runsummary : seq (seq RunRow);
  l_cosmics : seq (seq Cosmics.row);
  l_flatfield : seq (seq AuxRow);
  l_pedestals : seq (seq AuxRow)
}.

Definition no_lists : Lists := mkLists [::] [::] [::] [::] [::].

(** One iteration of [for file in datacheck_files]: the two [continue]
    tests, then the five [append]s. *)
Definition load_file (acc : Lists) (file : NightFile) : Lists :=
  if f_pedestals file is Some ped then
    if f_flatfield file is Some ff then
      mkLists (rcons (l_pixwise_runsummary acc) (f_pixwise_runsummary file))
              (rcons (l_runsummary acc) (map nan_to_zero (f_runsummary file)))
              (rcons (l_cosmics acc) (f_cosmics file))
              (rcons (l_flatfield acc) ff)
              (rcons (l_pedestals acc) ped)
    else acc
  else acc.

Definition load_loop (datacheck_files : seq NightFile) : Lists :=
  foldl load_file no_lists datacheck_files.

(** A file the loop does not skip: it has both nodes. *)
Definition usable (file : NightFile) : bool :=
  isSome (f_pedestals file) && isSome (f_flatfield file).

(** The run numbers recorded anywhere in a file. *)
Definition runs_of_file (file : NightFile) : seq nat :=
  [seq aux_runnumber r | r <- f_pixwise_runsummary file]
  ++ [seq runnumber r | r <- f_runsummary file]
  ++ [seq Cosmics.runnumber r | r <- f_cosmics file]
  ++ [seq aux_runnumber r | r <- odflt [::] (f_flatfield file)]
  ++ [seq aux_runnumber r | r <- odflt [::] (f_pedestals file)].

Arguments runs_of_file : simpl never.

(** The five stacked tables every later cell works on. *)
Record Tables := mkTables {
  dcheck_pixwise_runsummary : seq AuxRow;
  dcheck_runsummary : seq RunRow;
  dcheck_cosmics : seq Cosmics.row;
  dcheck_flatfield : seq AuxRow;
  dcheck_pedestals : seq AuxRow
}.

(** The run numbers found anywhere in the stacked tables. *)
Definition runs_of_tables (tb : Tables) : seq nat :=
  [seq aux_runnumber r | r <- dcheck_pixwise_runsummary tb]
  ++ [seq runnumber r | r <- dcheck_runsummary tb]
  ++ [seq Cosmics.runnumber r | r <- dcheck_cosmics tb]
  ++ [seq aux_runnumber r | r <- dcheck_flatfield tb]
  ++ [seq aux_runnumber r | r <- dcheck_pedestals tb].

(** The five [vstack] calls that close the loading cell, in their order. *)
Definition stack_lists (l : Lists) : option Tables :=
  if vstack (l_runsummary l) is Some rs then
    if vstack (l_cosmics l) is Some cs then
      if vstack (l_pixwise_runsummary l) is Some px then
        if vstack (l_flatfield l) is Some ff then
          if vstack (l_pedestals l) is Some pd then
            Some (mkTables px rs cs ff pd)
          else None
        else None
      else None
    else None
  else None.

Definition load_tables (datacheck_files : seq NightFile) : option Tables :=
  stack_lists (load_loop datacheck_files).

(** ** The cuts, as functions of the run summary *)

Module Cut.
Section Cuts.
Variable E : Externals.
Variable D : Dtypes.
Variable T : seq RunRow.

Definition ped_ok_mask : bitseq :=
  [seq np.isfinite (num_pedestals r) | r <- T].

Definition angular_distance : seq float :=
  [seq separation E (mean_ra r) (mean_dec r) | r <- T].

Definition source_mask : bitseq :=
  np.and_ [seq 0.35 <? d | d <- angular_distance]
          [seq d <? 0.45 | d <- angular_distance].

Definition min_zenith : float := 0.
Definition max_zenith : float := 35.

(** [np.rad2deg] and the difference from 90 are computed in the type of
    the column. *)
Definition zenith_mask : bitseq :=
  let d := min_altitude_dtype D in
  np.and_ [seq np.subtract d 90 (np.rad2deg d (min_altitude r)) <? max_zenith
          | r <- T]
          [seq min_zenith <? np.subtract d 90 (np.rad2deg d (min_altitude r))
          | r <- T].

Definition no_moon : bitseq := [seq moon_altitude E (time r) <? 0 | r <- T].

Definition moon_fraction : seq float :=
  [seq moon_illumination E (time r) | r <- T].

Definition moon_fraction_limit : float := 0.2.

Definition max_ped_std : float := 2.

Definition ped_std_cut : bitseq :=
  [seq ped_charge_stddev r <? max_ped_std | r <- T].

Definition rate_cosmics : seq float :=
  [seq np.true_divide
         (np.promote_types (num_cosmics_dtype D) (elapsed_time_dtype D))
         (num_cosmics r) (elapsed_time r) | r <- T].

Definition rate_mask : bitseq := [seq 3000 <? x | x <- rate_cosmics].

(** [fraction * dcheck_runsummary['num_cosmics'] /
    dcheck_runsummary['elapsed_time']] for a fraction column of type [df]:
    the product in the wider type of its factors, the quotient in the wider
    type of the product and the divisor. *)
Definition pulse_rate (df : dtype) (fraction : RunRow -> float) : seq float :=
  let dp := np.promote_types df (num_cosmics_dtype D) in
  [seq np.true_divide (np.promote_types dp (elapsed_time_dtype D))
         (np.multiply dp (fraction r) (num_cosmics r)) (elapsed_time r)
  | r <- T].

Definition rate10_mask : bitseq :=
  [seq 25 <? x
  | x <- pulse_rate (cosmics_fraction_pulses_above10_dtype D)
                    cosmics_fraction_pulses_above10].

Definition rate30_mask : bitseq :=
  [seq 4.5 <? x
  | x <- pulse_rate (cosmics_fraction_pulses_above30_dtype D)
                    cosmics_fraction_pulses_above30].

Definition pix_rate_mask : bitseq := rate10_mask &&& rate30_mask.

End Cuts.
End Cut.

(** ** Reporting: [print_runs] *)

(** What a [print] call writes.  For an array, the line records the array
    and the text written for it; the [rr] of a date line is a Python list,
    written in full. *)
Inductive printed :=
  | Wobble_runs (n : nat)          (* "{n} wobble runs for the selected source" *)
  | Observation_time (hours : float) (* "Observation time: {hours:.2f} hours" *)
  | Blank                          (* print() *)
  | Run_array (runs : seq nat) (text : array_text)
                                   (* print(np.array2string(runs, separator=', ')) *)
  | Date_line (i : nat) (date : nat) (rr : seq nat) (* print(i+1, ":", date, ":", rr) *)
  | Stars                          (* print("**********************") *)
  | Removed_runs (runs : seq nat) (text : array_text)
                                   (* print('Removed runs:', runs) *)
  | Zenith_range.                  (* print(f'With {min_zenith} < zenith < ...') *)

Inductive outcome := Returned | Raised.

(** [[f(t) for t in ts]]: the comprehension raises where [f] first does. *)
Fixpoint comprehension (A B : Type) (f : A -> option B) (ts : seq A)
  : option (seq B) :=
  if ts is t :: ts' then
    if f t is Some d then
      if comprehension f ts' is Some ds then Some (d :: ds) else None
    else None
  else Some [::].

Section Reporting.
Variable E : Externals.

(** [rr] of one date: the runs, in table order, whose date is [date]. *)
Definition runs_of_date (dates : seq nat) (runs : seq nat) (date : nat)
  : seq nat :=
  [seq dr.2 | dr <- zip dates runs & dr.1 == date].

(** The [by_date] loop over [enumerate(np.unique(dates))]. *)
Definition date_lines (dates : seq nat) (runs : seq nat) : seq printed :=
  [seq Date_line id.1.+1 id.2 (runs_of_date dates runs id.2)
  | id <- zip (iota 0 (size (np.unique dates))) (np.unique dates)].

(** [print_runs(table, mask, by_date)]: the lines written and whether the
    call returned.  The first line is written before the mask indexes a
    column.  The sum is a numpy scalar, and its quotient by the Python
    number 3600 is taken in double precision. *)
Definition print_runs (table : seq RunRow) (m : bitseq) (by_date : bool)
  : seq printed * outcome :=
  let line1 := [:: Wobble_runs (np.sum_bool m)] in
  if np.getitem [seq elapsed_time r | r <- table] m is Some et then
    if np.getitem [seq runnumber r | r <- table] m is Some runs then
      let head := line1 ++ [:: Observation_time (np_sum E et / 3600);
                               Blank; Run_array runs (np.array2string runs)] in
      if by_date then
        if np.getitem [seq time r | r <- table] m is Some ts then
          if comprehension (fun t => utc_date E (t - 0.5 * 86400)) ts
          is Some dates then
            (head ++ [:: Blank; Blank] ++ date_lines dates runs, Returned)
          else (head ++ [:: Blank; Blank], Raised)
        else (head ++ [:: Blank; Blank], Raised)
      else (head, Returned)
    else (line1, Raised)
  else (line1, Raised).

End Reporting.

(** The arrays [print_runs] hands to [np.array2string], in the order
    written, and the texts written for them. *)
Definition run_arrays (out : seq printed) : seq (seq nat) :=
  flatten [seq if p is Run_array runs _ then [:: runs] else [::] | p <- out].

Definition array_texts (out : seq printed) : seq array_text :=
  flatten [seq if p is Run_array _ text then [:: text] else [::] | p <- out].

(** The texts written after 'Removed runs:'. *)
Definition removed_texts (out : seq printed) : seq array_text :=
  flatten [seq if p is Removed_runs _ text then [:: text] else [::] | p <- out].

(** The [by_date] lines among printed lines, as (index, date, runs). *)
Definition date_groups (out : seq printed) : seq (nat * nat * seq nat) :=
  flatten [seq if p is Date_line i d rr then [:: (i, d, rr)] else [::] | p <- out].

(** ** The subrun-wise cut on the rate of pulses above 30 p.e. *)

Module Subrun.
Section Subruns.
Variable E : Externals.
Variable D : Dtypes.
Variable T : seq RunRow.
Variable C : seq Cosmics.row.

(** [run_list = np.array(dcheck_runsummary['runnumber'][mask])]. *)
Definition run_list (m : bitseq) : seq nat :=
  mask m [seq runnumber r | r <- T].

(** [runselection]: the subruns of the runs in [run_list]. *)
Definition runselection (rl : seq nat) : bitseq :=
  [seq Cosmics.runnumber c \in rl | c <- C].

(** [rate_cosmics_pulses] of the last cells, for each [npe], and its type:
    the product in the wider type of its factors, the quotient in the wider
    type of the product and the divisor. *)
Definition product_dtype (n : npe) : dtype :=
  np.promote_types (subrun_fraction_pulses_above_dtype D n) (subrun_events_dtype D).

Definition rate_dtype (n : npe) : dtype :=
  np.promote_types (product_dtype n) (subrun_elapsed_time_dtype D).

Definition rate_cosmics_pulses (n : npe) : seq float :=
  [seq np.true_divide (rate_dtype n)
         (np.multiply (product_dtype n) (Cosmics.fraction_pulses_above n c)
                      (Cosmics.events c))
         (Cosmics.elapsed_time c) | c <- C].

(** One entry of [std_npe]: for every run of [run_list], [np.std] of the
    rates of its subruns ([dummy.append(np.std(rate_cosmics_pulses[thisrun]))]). *)
Definition std_of_run (n : npe) (run : nat) : float :=
  np_std E (rate_dtype n)
         (mask [seq Cosmics.runnumber c == run | c <- C] (rate_cosmics_pulses n)).

Definition std_of_runs (n : npe) (rl : seq nat) : seq float :=
  [seq std_of_run n run | run <- rl].

Definition std_npe (rl : seq nat) : seq (seq float) :=
  [:: std_of_runs npe10 rl; std_of_runs npe30 rl].

Definition max_rate30_std : float := 0.2.

(** The body of [for i, run in enumerate(run_list)]; [std_npe[1][i]] is a
    numpy scalar, compared with the Python number 0.2. *)
Definition pulse30_step (cut : bitseq) (sr : float * nat) : bitseq :=
  if sr.1 <? max_rate30_std then cut
  else np.assign_false cut [seq runnumber r == sr.2 | r <- T].

(** [pulse30_std_cut] once the loop is over; [std_npe[1][i]] is paired with
    the [i]-th run. *)
Definition pulse30_std_cut (rl : seq nat) : bitseq :=
  foldl pulse30_step (np.full_true (size T))
        (zip (nth [::] (std_npe rl) 1) rl).

End Subruns.
End Subrun.

(** ** The notebook: a namespace and the cells that act on it *)

Module Nb.

(** The namespace after the loading cell: the five tables, the variables
    the cells assign and the text written so far.  Variables that only
    feed a plot are left out, and a drawing call is taken to return, as it
    does on arrays of one length.  In notebook order a cell reads a variable
    only after a cell that binds it, except for [utctime] and the two
    variables computed from it: the cell that binds [utctime] can raise, so
    these three are optional, [None] standing for a name that is not bound.
    An entry of [utctime] is the [datetime] of a time stamp, kept as that
    time stamp. *)
Record state := Mk {
  tables : Tables;
  ped_ok_mask : bitseq;
  angular_distance : seq float;
  source_mask : bitseq;
  zenith_mask : bitseq;
  utctime : option (seq float);
  no_moon : option bitseq;
  moon_fraction : option (seq float);
  ped_std_cut : bitseq;
  rate_cosmics : seq float;
  rate_mask : bitseq;
  rate10_mask : bitseq;
  rate30_mask : bitseq;
  pix_rate_mask : bitseq;
  mask : bitseq;
  run_list : seq nat;
  runselection : bitseq;
  std_npe : seq (seq float);
  pulse30_std_cut : bitseq;
  stdout : seq printed
}.

(** Assignment to one variable.  No cell after the loading cell assigns to
    a table or to one of its columns, so the cells need no more than these. *)
Definition set_ped_ok_mask (v : bitseq) (s : state) : state :=
  let: Mk x0 x1 x2 x3 x4 x5 x6 x7 x8 x9 x10 x11 x12 x13 x14 x15 x16 x17 x18
  x19 := s in
  Mk x0 v x2 x3 x4 x5 x6 x7 x8 x9 x10 x11 x12 x13 x14 x15 x16 x17 x18 x19.
Definition set_angular_distance (v : seq float) (s : state) : state :=
  let: Mk x0 x1 x2 x3 x4 x5 x6 x7 x8 x9 x10 x11 x12 x13 x14 x15 x16 x17 x18
  x19 := s in
  Mk x0 x1 v x3 x4 x5 x6 x7 x8 x9 x10 x11 x12 x13 x14 x15 x16 x17 x18 x19.
Definition set_source_mask (v : bitseq) (s : state) : state :=
  let: Mk x0 x1 x2 x3 x4 x5 x6 x7 x8 x9 x10 x11 x12 x13 x14 x15 x16 x17 x18
  x19 := s in
  Mk x0 x1 x2 v x4 x5 x6 x7 x8 x9 x10 x11 x12 x13 x14 x15 x16 x17 x18 x19.
Definition set_zenith_mask (v : bitseq) (s : state) : state :=
  let: Mk x0 x1 x2 x3 x4 x5 x6 x7 x8 x9 x10 x11 x12 x13 x14 x15 x16 x17 x18
  x19 := s in
  Mk x0 x1 x2 x3 v x5 x6 x7 x8 x9 x10 x11 x12 x13 x14 x15 x16 x17 x18 x19.
Definition set_utctime (v : option (seq float)) (s : state) : state :=
  let: Mk x0 x1 x2 x3 x4 x5 x6 x7 x8 x9 x10 x11 x12 x13 x14 x15 x16 x17 x18
  x19 := s in
  Mk x0 x1 x2 x3 x4 v x6 x7 x8 x9 x10 x11 x12 x13 x14 x15 x16 x17 x18 x19.
Definition set_no_moon (v : option bitseq) (s : state) : state :=
  let: Mk x0 x1 x2 x3 x4 x5 x6 x7 x8 x9 x10 x11 x12 x13 x14 x15 x16 x17 x18
  x19 := s in
  Mk x0 x1 x2 x3 x4 x5 v x7 x8 x9 x10 x11 x12 x13 x14 x15 x16 x17 x18 x19.
Definition set_moon_fraction (v : option (seq float)) (s : state) : state :=
  let: Mk x0 x1 x2 x3 x4 x5 x6 x7 x8 x9 x10 x11 x12 x13 x14 x15 x16 x17 x18
  x19 := s in
  Mk x0 x1 x2 x3 x4 x5 x6 v x8 x9 x10 x11 x12 x13 x14 x15 x16 x17 x18 x19.
Definition set_ped_std_cut (v : bitseq) (s : state) : state :=
  let: Mk x0 x1 x2 x3 x4 x5 x6 x7 x8 x9 x10 x11 x12 x13 x14 x15 x16 x17 x18
  x19 := s in
  Mk x0 x1 x2 x3 x4 x5 x6 x7 v x9 x10 x11 x12 x13 x14 x15 x16 x17 x18 x19.
Definition set_rate_cosmics (v : seq float) (s : state) : state :=
  let: Mk x0 x1 x2 x3 x4 x5 x6 x7 x8 x9 x10 x11 x12 x13 x14 x15 x16 x17 x18
  x19 := s in
  Mk x0 x1 x2 x3 x4 x5 x6 x7 x8 v x10 x11 x12 x13 x14 x15 x16 x17 x18 x19.
Definition set_rate_mask (v : bitseq) (s : state) : state :=
  let: Mk x0 x1 x2 x3 x4 x5 x6 x7 x8 x9 x10 x11 x12 x13 x14 x15 x16 x17 x18
  x19 := s in
  Mk x0 x1 x2 x3 x4 x5 x6 x7 x8 x9 v x11 x12 x13 x14 x15 x16 x17 x18 x19.
Definition set_rate10_mask (v : bitseq) (s : state) : state :=
  let: Mk x0 x1 x2 x3 x4 x5 x6 x7 x8 x9 x10 x11 x12 x13 x14 x15 x16 x17 x18
  x19 := s in
  Mk x0 x1 x2 x3 x4 x5 x6 x7 x8 x9 x10 v x12 x13 x14 x15 x16 x17 x18 x19.
Definition set_rate30_mask (v : bitseq) (s : state) : state :=
  let: Mk x0 x1 x2 x3 x4 x5 x6 x7 x8 x9 x10 x11 x12 x13 x14 x15 x16 x17 x18
  x19 := s in
  Mk x0 x1 x2 x3 x4 x5 x6 x7 x8 x9 x10 x11 v x13 x14 x15 x16 x17 x18 x19.
Definition set_pix_rate_mask (v : bitseq) (s : state) : state :=
  let: Mk x0 x1 x2 x3 x4 x5 x6 x7 x8 x9 x10 x11 x12 x13 x14 x15 x16 x17 x18
  x19 := s in
  Mk x0 x1 x2 x3 x4 x5 x6 x7 x8 x9 x10 x11 x12 v x14 x15 x16 x17 x18 x19.
Definition set_mask (v : bitseq) (s : state) : state :=
  let: Mk x0 x1 x2 x3 x4 x5 x6 x7 x8 x9 x10 x11 x12 x13 x14 x15 x16 x17 x18
  x19 := s in
  Mk x0 x1 x2 x3 x4 x5 x6 x7 x8 x9 x10 x11 x12 x13 v x15 x16 x17 x18 x19.
Definition set_run_list (v : seq nat) (s : state) : state :=
  let: Mk x0 x1 x2 x3 x4 x5 x6 x7 x8 x9 x10 x11 x12 x13 x14 x15 x16 x17 x18
  x19 := s in
  Mk x0 x1 x2 x3 x4 x5 x6 x7 x8 x9 x10 x11 x12 x13 x14 v x16 x17 x18 x19.
Definition set_runselection (v : bitseq) (s : state) : state :=
  let: Mk x0 x1 x2 x3 x4 x5 x6 x7 x8 x9 x10 x11 x12 x13 x14 x15 x16 x17 x18
  x19 := s in
  Mk x0 x1 x2 x3 x4 x5 x6 x7 x8 x9 x10 x11 x12 x13 x14 x15 v x17 x18 x19.
Definition set_std_npe (v : seq (seq float)) (s : state) : state :=
  let: Mk x0 x1 x2 x3 x4 x5 x6 x7 x8 x9 x10 x11 x12 x13 x14 x15 x16 x17 x18
  x19 := s in
  Mk x0 x1 x2 x3 x4 x5 x6 x7 x8 x9 x10 x11 x12 x13 x14 x15 x16 v x18 x19.
Definition set_pulse30_std_cut (v : bitseq) (s : state) : state :=
  let: Mk x0 x1 x2 x3 x4 x5 x6 x7 x8 x9 x10 x11 x12 x13 x14 x15 x16 x17 x18
  x19 := s in
  Mk x0 x1 x2 x3 x4 x5 x6 x7 x8 x9 x10 x11 x12 x13 x14 x15 x16 x17 v x19.
Definition set_stdout (v : seq printed) (s : state) : state :=
  let: Mk x0 x1 x2 x3 x4 x5 x6 x7 x8 x9 x10 x11 x12 x13 x14 x15 x16 x17 x18
  x19 := s in
  Mk x0 x1 x2 x3 x4 x5 x6 x7 x8 x9 x10 x11 x12 x13 x14 x15 x16 x17 x18 v.

(** The namespace the loading cell leaves: the tables, nothing else yet. *)
Definition start (tb : Tables) : state :=
  Mk tb [::] [::] [::] [::] None None None [::] [::] [::] [::] [::] [::] [::]
     [::] [::] [::] [::] [::].

(** [print(...)]. *)
Definition emit (lines : seq printed) (s : state) : state :=
  set_stdout (stdout s ++ lines) s.

Section Cells.
Variable E : Externals.
Variable D : Dtypes.

Definition table (s : state) : seq RunRow := dcheck_runsummary (tables s).

(** A call of [print_runs] inside a cell: its lines go to the output, and
    the cell goes on only if the call returned. *)
Definition call_print_runs (m : bitseq) (by_date : bool) (s : state)
  : state * outcome :=
  (emit (print_runs E (table s) m by_date).1 s,
   (print_runs E (table s) m by_date).2).

(** Exclude runs with issues in interleaved pedestals.  [print] writes
    [str] of the array, which is [np.array2string] of it. *)
Definition ped_ok_cell (s : state) : state :=
  let s := set_ped_ok_mask (Cut.ped_ok_mask (table s)) s in
  let removed := seq.mask (np.invert (ped_ok_mask s))
                          [seq runnumber r | r <- table s] in
  emit [:: Removed_runs removed (np.array2string removed)] s.

(** Find the runs with pointing close to the source of interest. *)
Definition source_cell (s : state) : state :=
  let s := set_angular_distance (Cut.angular_distance E (table s)) s in
  let s := set_source_mask
             (np.and_ [seq 0.35 <? d | d <- angular_distance s]
                      [seq d <? 0.45 | d <- angular_distance s]) s in
  (call_print_runs (source_mask s) false s).1.

(** Selection of zenith angle range. *)
Definition zenith_cell (s : state) : state :=
  emit [:: Zenith_range] (set_zenith_mask (Cut.zenith_mask D (table s)) s).

Definition zenith_report_cell (s : state) : state :=
  (call_print_runs (source_mask s &&& zenith_mask s &&& ped_ok_mask s) true s).1.

(** [utctime = np.array([datetime.utcfromtimestamp(x) for x in
    dcheck_runsummary['time']])]: when the comprehension raises, nothing is
    assigned and [utctime] is what it was. *)
Definition utctime_cell (s : state) : state :=
  set_utctime
    (if comprehension (fun x => if utc_date E x is Some _ then Some x else None)
                      [seq time r | r <- table s] is Some ts
     then Some ts else utctime s) s.

(** The plotting cells assign [mask] and draw; only the assignment is kept.
    The two cells on the sun read [utctime] after that assignment. *)
Definition plot3_cell (s : state) : state :=
  set_mask (source_mask s &&& zenith_mask s &&& ped_ok_mask s) s.

(** Check moon position: [mask] is assigned, then [utctime] is read; when
    that name is not bound the cell raises there, and [no_moon] is what it
    was. *)
Definition moon_cell (s : state) : state :=
  let s := plot3_cell s in
  set_no_moon
    (if utctime s is Some ts then Some [seq moon_altitude E t <? 0 | t <- ts]
     else no_moon s) s.

(** Fraction of illuminated moon. *)
Definition moon_fraction_cell (s : state) : state :=
  set_moon_fraction
    (if utctime s is Some ts then Some [seq moon_illumination E t | t <- ts]
     else moon_fraction s) s.

(** The moon plots: [mask] is assigned five times, and it keeps the value
    of the last assignment the cell reaches.  The first one reads [no_moon],
    the second one [moon_fraction]; the cell raises where it reads a name
    that is not bound. *)
Definition moon_plot_cell (s : state) : state :=
  let base := source_mask s &&& zenith_mask s &&& ped_ok_mask s in
  set_mask
    (match no_moon s, moon_fraction s with
     | Some nm, Some mf =>
         let m1 := base &&& nm in
         let m2 := base &&& np.invert nm
                   &&& [seq f <? Cut.moon_fraction_limit | f <- mf] in
         let m3 := base &&& np.invert nm
                   &&& [seq Cut.moon_fraction_limit <=? f | f <- mf] in
         let m4 := base &&& nm in
         base &&& np.invert nm
     | Some nm, None => base &&& nm
     | None, _ => mask s
     end) s.

(** The cut in the pedestal charge standard deviation. *)
Definition ped_std_cell (s : state) : state :=
  let s := set_ped_std_cut (Cut.ped_std_cut (table s)) s in
  (call_print_runs (source_mask s &&& zenith_mask s &&& ped_ok_mask s
                    &&& ped_std_cut s) false s).1.

(** Check rate of cosmics. *)
Definition rate_cosmics_cell (s : state) : state :=
  let s := set_mask (source_mask s &&& zenith_mask s &&& ped_ok_mask s
                     &&& ped_std_cut s) s in
  set_rate_cosmics (Cut.rate_cosmics D (table s)) s.

Definition rate_cell (s : state) : state :=
  let s := set_rate_mask [seq 3000 <? x | x <- rate_cosmics s] s in
  (call_print_runs (source_mask s &&& zenith_mask s &&& ped_ok_mask s
                    &&& ped_std_cut s &&& rate_mask s) false s).1.

Definition plot5_cell (s : state) : state :=
  set_mask (source_mask s &&& zenith_mask s &&& ped_ok_mask s
            &&& ped_std_cut s &&& rate_mask s) s.

(** Define minimum values for the pixel rates. *)
Definition pix_rate_cell (s : state) : state :=
  let s := set_rate10_mask (Cut.rate10_mask D (table s)) s in
  let s := set_rate30_mask (Cut.rate30_mask D (table s)) s in
  set_pix_rate_mask (rate10_mask s &&& rate30_mask s) s.

(** The cell with two reports: the second call is reached only if the
    first returned.  The cell assigns nothing, it only writes. *)
Definition pix_rate_report_lines (s : state) : seq printed :=
  let first := print_runs E (table s)
                 (source_mask s &&& zenith_mask s &&& ped_ok_mask s
                  &&& ped_std_cut s &&& rate_mask s) true in
  if first.2 is Returned then
    first.1 ++ [:: Blank; Stars; Blank]
    ++ (print_runs E (table s)
          (source_mask s &&& zenith_mask s &&& ped_ok_mask s
           &&& ped_std_cut s &&& rate_mask s &&& pix_rate_mask s) true).1
  else first.1.

Definition pix_rate_report_cell (s : state) : state :=
  emit (pix_rate_report_lines s) s.

Definition plot6_cell (s : state) : state :=
  set_mask (source_mask s &&& zenith_mask s &&& ped_ok_mask s
            &&& ped_std_cut s &&& rate_mask s &&& pix_rate_mask s) s.

(** Final list of selected runs by date. *)
Definition final_cell (s : state) : state :=
  let s := plot6_cell s in
  (call_print_runs (mask s) true s).1.

(** How to look into subrun-wise info. *)
Definition run_list_cell (s : state) : state :=
  let s := plot6_cell s in
  let s := set_run_list (Subrun.run_list (table s) (mask s)) s in
  set_runselection (Subrun.runselection (dcheck_cosmics (tables s)) (run_list s)) s.

Definition std_npe_cell (s : state) : state :=
  set_std_npe (Subrun.std_npe E D (dcheck_cosmics (tables s)) (run_list s)) s.

(** The last cell; it reads [std_npe] and [run_list] as the cells before
    left them. *)
Definition pulse30_cell (s : state) : state :=
  set_pulse30_std_cut
    (foldl (Subrun.pulse30_step (table s)) (np.full_true (size (table s)))
           (zip (nth [::] (std_npe s) 1) (run_list s))) s.

(** The cells in notebook order, from the first cut on. *)
Definition cells : seq (state -> state) :=
  [:: ped_ok_cell; source_cell; zenith_cell; zenith_report_cell; utctime_cell;
      plot3_cell; plot3_cell; moon_cell; moon_fraction_cell; moon_plot_cell;
      ped_std_cell; rate_cosmics_cell; rate_cosmics_cell; rate_cell;
      plot5_cell; plot5_cell; plot5_cell; pix_rate_cell; pix_rate_report_cell;
      plot6_cell; plot6_cell; plot6_cell; plot6_cell; plot6_cell; plot6_cell;
      final_cell; run_list_cell; std_npe_cell; pulse30_cell].

(** Running cells one after the other; a cell that raised has left the
    namespace as it was at the raise, and the next cell is run on it. *)
Definition run_cells (cs : seq (state -> state)) (s : state) : state :=
  foldl (fun s c => c s) s cs.

Definition run (tb : Tables) : state := run_cells cells (start tb).

End Cells.
End Nb.

(** ** Verdicts row by row

    The condition each cut tests on one row of the run summary, and the
    conjunction the final cell reports. *)

Module Row.
Section Verdicts.
Variable E : Externals.
Variable D : Dtypes.

Definition distance (r : RunRow) : float := separation E (mean_ra r) (mean_dec r).
Definition zenith (r : RunRow) : float :=
  np.subtract (min_altitude_dtype D) 90
    (np.rad2deg (min_altitude_dtype D) (min_altitude r)).
Definition rate (r : RunRow) : float :=
  np.true_divide (np.promote_types (num_cosmics_dtype D) (elapsed_time_dtype D))
    (num_cosmics r) (elapsed_time r).
Definition rate_above (df : dtype) (fraction : RunRow -> float) (r : RunRow)
  : float :=
  let dp := np.promote_types df (num_cosmics_dtype D) in
  np.true_divide (np.promote_types dp (elapsed_time_dtype D))
    (np.multiply dp (fraction r) (num_cosmics r)) (elapsed_time r).
Definition rate_above10 : RunRow -> float :=
  rate_above (cosmics_fraction_pulses_above10_dtype D)
             cosmics_fraction_pulses_above10.
Definition rate_above30 : RunRow -> float :=
  rate_above (cosmics_fraction_pulses_above30_dtype D)
             cosmics_fraction_pulses_above30.

Definition source_ok r := (0.35 <? distance r) && (distance r <? 0.45).
Definition zenith_ok r := (zenith r <? 35) && (0 <? zenith r).
Definition ped_ok r := np.isfinite (num_pedestals r).
Definition ped_std_ok r := ped_charge_stddev r <? 2.
Definition rate_ok r := 3000 <? rate r.
Definition pix_rate_ok r := (25 <? rate_above10 r) && (4.5 <? rate_above30 r).

(** The six conjuncts of the mask of the final cell. *)
Definition selected r : bool :=
  [&& source_ok r, zenith_ok r, ped_ok r, ped_std_ok r, rate_ok r & pix_rate_ok r].

(** The moon as the moon plots classify it: below the horizon, or above it
    and less than [moon_fraction_limit] illuminated. *)
Definition moon_below r := moon_altitude E (time r) <? 0.
Definition moon_dim r := moon_illumination E (time r) <? Cut.moon_fraction_limit.


End Verdicts.
End Row.

(** The mask of the final cell, as an expression over the cuts. *)
Definition final_mask (E : Externals) (D : Dtypes) (T : seq RunRow) : bitseq :=
  Cut.source_mask E T &&& Cut.zenith_mask D T &&& Cut.ped_ok_mask T
  &&& Cut.ped_std_cut T &&& Cut.rate_mask D T &&& Cut.pix_rate_mask D T.


(** The run numbers of the rows a mask selects ([table['runnumber'][mask]]). *)
Definition selection (T : seq RunRow) (m : bitseq) : seq nat :=
  [seq runnumber r | r <- mask m T].

(** The masks handed to [print_runs], call after call. *)
Definition report_masks (E : Externals) (D : Dtypes) (T : seq RunRow)
  : seq bitseq :=
  let m3 := Cut.source_mask E T &&& Cut.zenith_mask D T &&& Cut.ped_ok_mask T in
  let m4 := m3 &&& Cut.ped_std_cut T in
  let m5 := m4 &&& Cut.rate_mask D T in
  [:: Cut.source_mask E T; m3; m4; m5; m5; m5 &&& Cut.pix_rate_mask D T;
      final_mask E D T].

(** The lines of the cell with two reports, over the cuts. *)
Definition report_lines (E : Externals) (D : Dtypes) (T : seq RunRow)
  : seq printed :=
  let first := print_runs E T (nth [::] (report_masks E D T) 4) true in
  if first.2 is Returned then
    first.1 ++ [:: Blank; Stars; Blank]
    ++ (print_runs E T (nth [::] (report_masks E D T) 5) true).1
  else first.1.

(** The run array of the final cell, the last one the notebook hands to
    [np.array2string], and the text written for it. *)
Definition final_printout (E : Externals) (D : Dtypes) (tb : Tables) : seq nat :=
  last [::] (run_arrays (Nb.stdout (Nb.run E D tb))).

Definition final_text (E : Externals) (D : Dtypes) (tb : Tables) : array_text :=
  last (Entries [::]) (array_texts (Nb.stdout (Nb.run E D tb))).

(** The test of the last loop that lets a run be cut: the standard
    deviation of its subrun rates is not below [max_rate30_std]. *)
Definition unstable (E : Externals) (D : Dtypes) (C : seq Cosmics.row)
    (run : nat) : bool :=
  ~~ (Subrun.std_of_run E D C npe30 run <? Subrun.max_rate30_std).

(** NaN among the specification-level floats. *)
Definition sf_is_nan (f : spec_float) : bool :=
  if f is S754_nan then true else false.

(** ** Conjoining masks in some order *)

(** The tests behind the six run-wise masks. *)
Definition six_tests (E : Externals) (D : Dtypes) : seq (pred RunRow) :=
  [:: Row.source_ok E; Row.zenith_ok D; Row.ped_ok; Row.ped_std_ok;
      Row.rate_ok D; Row.pix_rate_ok D].

(** [m1 & m2 & ... & mk] over a table of [n] rows. *)
Definition conjoin (n : nat) (ms : seq bitseq) : bitseq :=
  foldl np.and_ (np.full_true n) ms.

(** The six run-wise masks of the final cell, in its order. *)
Definition six_masks (E : Externals) (D : Dtypes) (T : seq RunRow)
  : seq bitseq :=
  [:: Cut.source_mask E T; Cut.zenith_mask D T; Cut.ped_ok_mask T;
      Cut.ped_std_cut T; Cut.rate_mask D T; Cut.pix_rate_mask D T].

(** The last three cells as a function of the value [mask] has when they
    run: [run_list] is read off [mask], [std_npe] is computed for it and the
    loop builds [pulse30_std_cut].  The notebook runs them once, [mask]
    being the mask of the final cell. *)
Definition pulse30_after (E : Externals) (D : Dtypes) (T : seq RunRow)
    (C : seq Cosmics.row) (applied : bitseq) : bitseq :=
  Subrun.pulse30_std_cut E D T C (Subrun.run_list T applied).

(** The seven mask variables the namespace holds when the notebook is
    through: the six of the final cell, and [pulse30_std_cut]. *)
Definition seven_masks (s : Nb.state) : seq bitseq :=
  [:: Nb.source_mask s; Nb.zenith_mask s; Nb.ped_ok_mask s; Nb.ped_std_cut s;
      Nb.rate_mask s; Nb.pix_rate_mask s; Nb.pulse30_std_cut s].

(** ** Stand-ins for the libraries, to evaluate the notebook on examples *)

Module Demo.

(** A sum from left to right, and the population standard deviation in two
    passes; on an empty array the mean is [0/0], as in numpy. *)
Definition sum (d : dtype) (s : seq float) : float := foldl (np.add d) 0 s.
Definition length (s : seq float) : float := foldl (fun n _ => n + 1) 0 s.
Definition std (d : dtype) (s : seq float) : float :=
  let mean := np.true_divide d (sum d s) (length s) in
  np.sqrt d
    (np.true_divide d
       (sum d [seq np.multiply d (np.subtract d x mean) (np.subtract d x mean)
              | x <- s])
       (length s)).

(** The separation from a source at declination 22.0145 deg, for pointings
    at the right ascension of the source. *)
Definition separation (ra dec : float) : float := abs (dec - 22.0145).

(** Days since 1 January 1970, for time stamps from that day on. *)
Fixpoint days (fuel : nat) (t : float) : nat :=
  if fuel is fuel'.+1 then
    if t <? 86400 then 0%N else (days fuel' (t - 86400)).+1
  else 0%N.

Definition utc_date (t : float) : option nat :=
  if is_finite t && (0 <=? t) then Some (days (200 * 200)%N t) else None.

(** The moon is given one altitude and one illuminated fraction for the
    whole data set; [elapsed_time] is summed in double precision. *)
Definition externals (moon_alt moon_frac : float) : Externals :=
  mkExternals (sum float64) std separation (fun _ => moon_alt)
              (fun _ => moon_frac) utc_date.

(** Tables whose columns all are [float64], or all [float32]. *)
Definition double : Dtypes :=
  mkDtypes float64 float64 float64 float64 float64 float64 float64 float64
           float64.
Definition single : Dtypes :=
  mkDtypes float32 float32 float32 float32 float32 float32 float32 float32
           float32.

(** A run taken at 0.4 deg from the source, at 20 deg of zenith, with quiet
    pedestals and good rates; [nped] and [stddev] are left open. *)
Definition good_run (run : nat) (t nped stddev : float) : RunRow :=
  mkRunRow run t 1200 83.6331 22.4145 1.2 1.2217 9600000 nped 120000
           stddev 0.01 0.002 [::].

(** A subrun of ten seconds of [run] with the given fraction of pulses
    above 30 p.e. *)
Definition subrun (run : nat) (f30 : float) : Cosmics.row :=
  Cosmics.mk run 0.01 f30 80000 10.

Definition tables_of (T : seq RunRow) (C : seq Cosmics.row) : Tables :=
  mkTables [::] T C [::] [::].

Definition night_file (T : seq RunRow) (C : seq Cosmics.row)
    (ff ped : option (seq AuxRow)) : NightFile :=
  mkNightFile [::] T C ff ped.

(** A moonless night, and three runs over two nights: 2935 has noisy
    pedestals, 2936 an unsteady rate of pulses above 30 p.e. *)
Definition dark : Externals := externals (-10) 0.1.

Definition rows : seq RunRow :=
  [:: good_run 2934 1605830400 120000 1.5;
      good_run 2935 1605832200 120000 2.5;
      good_run 2936 1605916800 120000 1.5].

Definition cosmics : seq Cosmics.row :=
  [:: subrun 2934 0.002; subrun 2934 0.002;
      subrun 2936 0.002; subrun 2936 0.0021].

Definition night : NightFile := night_file rows cosmics (Some [::]) (Some [::]).

Definition tables : Tables := tables_of rows cosmics.

(** A thousand and one good runs, numbered from 1, all with the time
    stamp of noon of 3 January 1970. *)
Definition many_rows : seq RunRow :=
  [seq good_run run 216000 120000 1.5 | run <- iota 1 1001].

(** A run whose minimum altitude is the single-precision number
    0.9599311 rad, which is 55.0000027 deg; the other numbers that enter an
    arithmetic operation are numbers of single precision too. *)
Definition run_at_55_deg : RunRow :=
  mkRunRow 5000 1605830400 1200 83.6331 22.4145 0x1.eb7c18p-1 0x1.eb7c18p-1
           9600000 120000 120000 1.5 0x1.47ae14p-7 0x1.0624dep-9 [::].

(** The run without flatfield events, as the file has it and as loaded. *)
Definition run_2940 : RunRow := good_run 2940 1606089600 120000 1.5.

(** A night file without the pedestals node. *)
Definition night_without_pedestals : NightFile :=
  night_file [:: good_run 3000 1606003200 120000 1.5] [::] (Some [::]) None.

(** A night file with one run for which no flatfield event was found. *)
Definition night_without_flatfield_events : NightFile :=
  night_file [:: set_num_flatfield nan run_2940] [::] (Some [::]) (Some [::]).

End Demo.

(** ** File discovery (the cell that sets [datacheck_files]) *)

Module Files.

(** A path is a Python [str], here the sequence of its code points; [<=] on
    [str] compares code point by code point, a proper prefix coming first. *)
Fixpoint str_le (a b : seq nat) : bool :=
  match a, b with
  | [::], _ => true
  | _ :: _, [::] => false
  | x :: a', y :: b' => (x < y)%N || ((x == y) && str_le a' b')
  end.

(** [datacheck_files = glob.glob(...)] followed by [datacheck_files.sort()]. *)
Definition datacheck_files (globbed : seq (seq nat)) : seq (seq nat) :=
  sort str_le globbed.

(** The loading cell over the files found; [read] gives the content of the
    file at a path. *)
Definition load (read : seq nat -> NightFile) (globbed : seq (seq nat))
  : option Tables :=
  load_tables [seq read p | p <- datacheck_files globbed].

End Files.

(** ** The moon plots (the masks of the three scatter series) *)

Module Moon.
Section Series.
Variable E : Externals.
Variable D : Dtypes.
Variable T : seq RunRow.

Definition base : bitseq :=
  Cut.source_mask E T &&& Cut.zenith_mask D T &&& Cut.ped_ok_mask T.

(** [mask = ... & no_moon]: moon below the horizon. *)
Definition below_horizon : bitseq := base &&& Cut.no_moon E T.

(** [mask = ... & ~no_moon]: moon above the horizon. *)
Definition above_horizon : bitseq := base &&& np.invert (Cut.no_moon E T).

(** [mask = ... & ~no_moon & (moon_fraction < moon_fraction_limit)]. *)
Definition dim : bitseq :=
  base &&& np.invert (Cut.no_moon E T)
  &&& [seq f <? Cut.moon_fraction_limit | f <- Cut.moon_fraction E T].

(** [mask = ... & ~no_moon & (moon_fraction >= moon_fraction_limit)]. *)
Definition bright : bitseq :=
  base &&& np.invert (Cut.no_moon E T)
  &&& [seq Cut.moon_fraction_limit <=? f | f <- Cut.moon_fraction E T].

End Series.
End Moon.

(** ** Quantities used to state properties of the cells *)

(** The boolean variables of the namespace that are always bound and index
    the run summary. *)
Definition run_masks (s : Nb.state) : seq bitseq :=
  [:: Nb.ped_ok_mask s; Nb.source_mask s; Nb.zenith_mask s;
      Nb.ped_std_cut s; Nb.rate_mask s; Nb.rate10_mask s; Nb.rate30_mask s;
      Nb.pix_rate_mask s; Nb.mask s; Nb.pulse30_std_cut s].

(** Every time stamp of the table is one [utcfromtimestamp] converts. *)
Definition convertible (E : Externals) (T : seq RunRow) : bool :=
  all (fun r => isSome (utc_date E (time r))) T.

(** The namespace without the text written so far. *)
Definition variables (s : Nb.state) : Nb.state := Nb.set_stdout [::] s.

(** The quantities the six cuts compare with their thresholds. *)
Definition tested (E : Externals) (D : Dtypes) (r : RunRow) : seq float :=
  [:: Row.distance E r; Row.zenith D r; num_pedestals r; ped_charge_stddev r;
      Row.rate D r; Row.rate_above10 D r; Row.rate_above30 D r].

(** Stacking two sets of tables, table by table. *)
Definition cat_tables (a b : Tables) : Tables :=
  mkTables (dcheck_pixwise_runsummary a ++ dcheck_pixwise_runsummary b)
           (dcheck_runsummary a ++ dcheck_runsummary b)
           (dcheck_cosmics a ++ dcheck_cosmics b)
           (dcheck_flatfield a ++ dcheck_flatfield b)
           (dcheck_pedestals a ++ dcheck_pedestals b).

(** A call that did not raise. *)
Definition returned (o : outcome) : bool := if o is Returned then true else false.

(** ** Further demonstration data *)

Module Example.

(** Two paths, "19" and "20", and what is read at them. *)
Definition path_19 : seq nat := [:: 49; 57]%N.
Definition path_20 : seq nat := [:: 50; 48]%N.

Definition read (p : seq nat) : NightFile :=
  if p == path_19 then Demo.night else Demo.night_without_flatfield_events.

(** A run without interleaved pedestals, followed by a good one. *)
Definition rows_without_pedestals : seq RunRow :=
  [:: Demo.good_run 2950 1606176000 nan 1.5;
      Demo.good_run 2951 1606177800 120000 1.5].

(** One run recorded in two rows. *)
Definition rows_repeated : seq RunRow :=
  [:: Demo.good_run 2934 1605830400 120000 1.5;
      Demo.good_run 2934 1605830400 120000 1.5].

(** A run whose time stamp is NaN. *)
Definition rows_without_time : seq RunRow :=
  [:: Demo.good_run 2960 nan 120000 1.5].

End Example.
(** ** Element-wise conjunction and boolean indexing *)

Section MaskAlgebra.

Lemma size_and_ (a b : bitseq) : size (a &&& b) = minn (size a) (size b).
Proof. by rewrite /np.and_ size_map size_zip. Qed.


Lemma and_A (a b c : bitseq) : a &&& (b &&& c) = a &&& b &&& c.
Proof.
elim: a b c => [|x a IH] [|y b] [|z c] //=.
by rewrite /np.and_ /= andbA -!/(np.and_ _ _) IH.
Qed.

Lemma and_map (A : Type) (f g : A -> bool) (s : seq A) :
  [seq f x | x <- s] &&& [seq g x | x <- s] = [seq f x && g x | x <- s].
Proof. by elim: s => [|x s IH] //=; rewrite /np.and_ /= -/(np.and_ _ _) IH. Qed.

Lemma and_true (n : nat) (a : bitseq) : size a <= n -> np.full_true n &&& a = a.
Proof.
elim: a n => [|x a IH] [|n] //= le_an.
by rewrite /np.and_ /= -/(np.and_ _ _) -/(np.full_true n) IH.
Qed.

(** Indexing a column with a mask computed row by row is filtering rows. *)
Lemma mask_map_filter (A B : Type) (p : A -> bool) (f : A -> B) (s : seq A) :
  mask [seq p x | x <- s] [seq f x | x <- s] = [seq f x | x <- s & p x].
Proof. by rewrite -map_mask -filter_mask. Qed.

(** Conjoining a further mask selects a subsequence. *)
Lemma mask_and_subseq (A : eqType) (a b : bitseq) (s : seq A) :
  subseq (mask (a &&& b) s) (mask a s).
Proof.
elim: s a b => [|x s IH] a b; first by rewrite !mask0.
case: a b => [|u a] [|v b] //=; rewrite ?mask0s ?sub0seq //.
rewrite /np.and_ /= -/(np.and_ a b).
case: u => /=; last exact: IH.
case: v => /=; first by rewrite eqxx; exact: IH.
by apply: subseq_trans (IH a b) (subseq_cons _ _).
Qed.

End MaskAlgebra.

(** ** The cuts, row by row *)

Section CutsRowwise.
Variable E : Externals.
Variable D : Dtypes.
Variable T : seq RunRow.

Lemma source_maskE : Cut.source_mask E T = [seq Row.source_ok E r | r <- T].
Proof. by rewrite /Cut.source_mask /Cut.angular_distance -!map_comp and_map. Qed.

Lemma zenith_maskE : Cut.zenith_mask D T = [seq Row.zenith_ok D r | r <- T].
Proof. by rewrite /Cut.zenith_mask and_map. Qed.

Lemma rate_maskE : Cut.rate_mask D T = [seq Row.rate_ok D r | r <- T].
Proof. by rewrite /Cut.rate_mask /Cut.rate_cosmics -map_comp. Qed.

Lemma pix_rate_maskE : Cut.pix_rate_mask D T = [seq Row.pix_rate_ok D r | r <- T].
Proof.
by rewrite /Cut.pix_rate_mask /Cut.rate10_mask /Cut.rate30_mask /Cut.pulse_rate
           -!map_comp and_map.
Qed.

Lemma final_maskE : final_mask E D T = [seq Row.selected E D r | r <- T].
Proof.
rewrite /final_mask source_maskE zenith_maskE rate_maskE pix_rate_maskE.
rewrite /Cut.ped_ok_mask /Cut.ped_std_cut !and_map.
by apply: eq_map => r; rewrite /Row.selected -!andbA.
Qed.

Lemma size_final_mask : size (final_mask E D T) = size T.
Proof. by rewrite final_maskE size_map. Qed.

End CutsRowwise.

(** ** What [print_runs] writes *)

Section PrintRuns.
Variable E : Externals.

Lemma run_arrays_cat (a b : seq printed) :
  run_arrays (a ++ b) = run_arrays a ++ run_arrays b.
Proof. by rewrite /run_arrays map_cat flatten_cat. Qed.

Lemma date_groups_cat (a b : seq printed) :
  date_groups (a ++ b) = date_groups a ++ date_groups b.
Proof. by rewrite /date_groups map_cat flatten_cat. Qed.


Lemma run_arrays_date_lines (dates runs : seq nat) :
  run_arrays (date_lines dates runs) = [::].
Proof.
rewrite /date_lines /run_arrays -map_comp.
by elim: (zip _ _) => [|x s IH].
Qed.


Lemma date_groups_date_lines (dates runs : seq nat) :
  date_groups (date_lines dates runs)
  = [seq (id.1.+1, id.2, runs_of_date dates runs id.2)
    | id <- zip (iota 0 (size (np.unique dates))) (np.unique dates)].
Proof.
rewrite /date_lines /date_groups -map_comp.
by elim: (zip _ _) => [|x s IH] //=; rewrite IH.
Qed.

Lemma comprehension_map (A B : Type) (f : A -> option B) (ts : seq A) ds :
  comprehension f ts = Some ds -> [seq f t | t <- ts] = [seq Some d | d <- ds].
Proof.
elim: ts ds => [|t ts IH] ds /=; first by case=> <-.
case: (f t) => [d|] //; case: (comprehension f ts) IH => [ds'|] // IH [<-] /=.
by rewrite (IH ds').
Qed.


(** With a mask of the length of the table no index raises, and the call
    reads as follows. *)
Lemma print_runsE (T : seq RunRow) (m : bitseq) (by_date : bool) :
  size m = size T ->
  print_runs E T m by_date
  = let sel := mask m T in
    let head := [:: Wobble_runs (count id m);
                    Observation_time
                      (np_sum E [seq elapsed_time r | r <- sel] / 3600);
                    Blank;
                    Run_array [seq runnumber r | r <- sel]
                              (np.array2string [seq runnumber r | r <- sel])] in
    if by_date then
      if comprehension (fun t => utc_date E (t - 0.5 * 86400))
                       [seq time r | r <- sel] is Some dates
      then (head ++ [:: Blank; Blank]
            ++ date_lines dates [seq runnumber r | r <- sel], Returned)
      else (head ++ [:: Blank; Blank], Raised)
    else (head, Returned).
Proof.
move=> sz; rewrite /print_runs /np.getitem !size_map sz eqxx /= !map_mask.
by case: by_date.
Qed.

Lemma print_runs_arrays (T : seq RunRow) (m : bitseq) (by_date : bool) :
  size m = size T ->
  run_arrays (print_runs E T m by_date).1 = [:: [seq runnumber r | r <- mask m T]].
Proof.
move=> sz; rewrite print_runsE //=; case: by_date => //=.
case: (comprehension _ _) => [dates|] //=.
by rewrite /run_arrays /= -/(run_arrays _) run_arrays_date_lines.
Qed.


End PrintRuns.

(** ** The state the notebook reaches *)

Section NotebookRun.
Variable E : Externals.
Variable D : Dtypes.
Variable tb : Tables.
Let T := dcheck_runsummary tb.
Let C := dcheck_cosmics tb.

Lemma run_tables : Nb.tables (Nb.run E D tb) = tb.
Proof. by []. Qed.


Lemma run_mask : Nb.mask (Nb.run E D tb) = final_mask E D T.
Proof. by []. Qed.

Lemma run_run_list : Nb.run_list (Nb.run E D tb) = Subrun.run_list T (final_mask E D T).
Proof. by []. Qed.

Lemma run_pulse30 :
  Nb.pulse30_std_cut (Nb.run E D tb) = pulse30_after E D T C (final_mask E D T).
Proof. by []. Qed.

Lemma run_stdout :
  Nb.stdout (Nb.run E D tb)
  = [:: Removed_runs (mask (np.invert (Cut.ped_ok_mask T))
                           [seq runnumber r | r <- T])
                     (np.array2string (mask (np.invert (Cut.ped_ok_mask T))
                                            [seq runnumber r | r <- T]))]
    ++ (print_runs E T (nth [::] (report_masks E D T) 0) false).1
    ++ [:: Zenith_range]
    ++ (print_runs E T (nth [::] (report_masks E D T) 1) true).1
    ++ (print_runs E T (nth [::] (report_masks E D T) 2) false).1
    ++ (print_runs E T (nth [::] (report_masks E D T) 3) false).1
    ++ report_lines E D T
    ++ (print_runs E T (nth [::] (report_masks E D T) 6) true).1.
Proof. by rewrite !catA. Qed.

End NotebookRun.

(** ** The run arrays the notebook prints *)

Section Reports.
Variable E : Externals.
Variable D : Dtypes.
Variable tb : Tables.
Let T := dcheck_runsummary tb.

Local Notation selection := (selection T).

Lemma size_report_masks m : m \in report_masks E D T -> size m = size T.
Proof.
rewrite /report_masks /final_mask !inE.
rewrite source_maskE zenith_maskE rate_maskE pix_rate_maskE.
rewrite /Cut.ped_ok_mask /Cut.ped_std_cut !and_map.
by do 6![case/orP => [/eqP->|]; first by rewrite size_map]; move/eqP->; rewrite size_map.
Qed.

Lemma size_report_mask i : i < 7 -> size (nth [::] (report_masks E D T) i) = size T.
Proof. by move=> lt_i; apply: size_report_masks; apply: mem_nth. Qed.

Lemma report_lines_arrays :
  run_arrays (report_lines E D T)
  = selection (nth [::] (report_masks E D T) 4)
    :: (if (print_runs E T (nth [::] (report_masks E D T) 4) true).2 is Returned
        then [:: selection (nth [::] (report_masks E D T) 5)] else [::]).
Proof.
rewrite /report_lines; case: (_.2).
  by rewrite !run_arrays_cat !print_runs_arrays ?size_report_mask.
by rewrite print_runs_arrays ?size_report_mask.
Qed.

Lemma run_arrays_run :
  run_arrays (Nb.stdout (Nb.run E D tb))
  = [seq selection m | m <- take 5 (report_masks E D T)]
    ++ (if (print_runs E T (nth [::] (report_masks E D T) 4) true).2 is Returned
        then [:: selection (nth [::] (report_masks E D T) 5)] else [::])
    ++ [:: selection (final_mask E D T)].
Proof.
rewrite run_stdout !run_arrays_cat report_lines_arrays.
by rewrite !print_runs_arrays ?size_report_mask.
Qed.



End Reports.

(** ** The final list *)

Lemma selection_rowwise (T : seq RunRow) (p : pred RunRow) :
  selection T [seq p r | r <- T] = [seq runnumber r | r <- T & p r].
Proof. by rewrite /selection -filter_mask. Qed.

Lemma mem_selection_rowwise (T : seq RunRow) (p : pred RunRow) (n : nat) :
  (n \in [seq runnumber r | r <- T & p r])
  = has (fun r => (runnumber r == n) && p r) T.
Proof.
rewrite -has_pred1 has_map; elim: T => [|r T IH] //=.
by case: (p r); rewrite /= IH ?andbT ?andbF // eq_sym.
Qed.

Lemma final_printoutE (E : Externals) (D : Dtypes) (tb : Tables) :
  final_printout E D tb
  = [seq runnumber r | r <- dcheck_runsummary tb & Row.selected E D r].
Proof.
rewrite /final_printout run_arrays_run !last_cat /=.
by rewrite final_maskE selection_rowwise.
Qed.






(** Of 1001 selected runs, numbered from 1, the text of the final cell
    shows six. *)
Lemma final_text_of_many_runs :
  final_text Demo.dark Demo.double (Demo.tables_of Demo.many_rows [::])
  = Edges [:: 1; 2; 3]%N [:: 999; 1000; 1001]%N.
Proof. by vm_compute. Qed.


(** ** Thresholds *)

Section Arithmetic.





End Arithmetic.


(** The two precisions part at the threshold: a run whose minimum altitude
    is the single-precision number 0.9599311 rad is at a zenith angle of
    34.9999973 deg in double precision and passes the zenith cut; in single
    precision the product with the factor rounds to 55, the zenith angle is
    35 and the run fails the cut. *)
Lemma zenith_cut_at_35_deg :
  Nb.zenith_mask (Nb.run Demo.dark Demo.single
                    (Demo.tables_of [:: Demo.run_at_55_deg] [::])) = [:: false]
  /\ Nb.zenith_mask (Nb.run Demo.dark Demo.double
                       (Demo.tables_of [:: Demo.run_at_55_deg] [::])) = [:: true]
  /\ final_printout Demo.dark Demo.single
       (Demo.tables_of [:: Demo.run_at_55_deg] [::]) = [::]
  /\ final_printout Demo.dark Demo.double
       (Demo.tables_of [:: Demo.run_at_55_deg] [::]) = [:: 5000%N].
Proof. by vm_compute. Qed.

(** ** Successive reports *)

Lemma selection_and_subseq (T : seq RunRow) (a b : bitseq) :
  subseq (selection T (a &&& b)) (selection T a).
Proof. by rewrite /selection !map_mask; exact: mask_and_subseq. Qed.

Lemma selection_and2_subseq (T : seq RunRow) (a b c : bitseq) :
  subseq (selection T (a &&& b &&& c)) (selection T a).
Proof. by rewrite -and_A; exact: selection_and_subseq. Qed.

Lemma reports_sorted (E : Externals) (D : Dtypes) (tb : Tables) :
  sorted (fun a b : seq nat => subseq b a)
         (run_arrays (Nb.stdout (Nb.run E D tb))).
Proof.
rewrite run_arrays_run; set T := dcheck_runsummary tb.
by case: (_.2) => /=;
  rewrite !andbT selection_and2_subseq !selection_and_subseq !subseq_refl.
Qed.

(** C4: conjoining one more mask selects a subsequence of the runs selected
    before, and of any two run arrays the notebook prints the later one is a
    subsequence of the earlier one. *)
Theorem reports_shrink (E : Externals) (D : Dtypes) (tb : Tables) :
  let T := dcheck_runsummary tb in
  let printed := run_arrays (Nb.stdout (Nb.run E D tb)) in
  (forall a b : bitseq, subseq (selection T (a &&& b)) (selection T a))
  /\ (forall i j : nat, i <= j -> j < size printed ->
        subseq (nth [::] printed j) (nth [::] printed i)).
Proof.
move=> T printed; split=> [a b|i j le_ij lt_j]; first exact: selection_and_subseq.
have tr : transitive (fun a b : seq nat => subseq b a).
  by move=> y x z xy yz; exact: subseq_trans yz xy.
have rf : reflexive (fun a b : seq nat => subseq b a) by move=> x; exact: subseq_refl.
apply: (sorted_leq_nth tr rf [::] (reports_sorted E D tb)) => //.
by rewrite inE; exact: leq_ltn_trans le_ij lt_j.
Qed.

(** ** The tables are only read *)

Lemma cell_tables (E : Externals) (D : Dtypes) (i : nat) (s : Nb.state) :
  Nb.tables (nth id (Nb.cells E D) i s) = Nb.tables s.
Proof.
do 29![case: i => [|i]; first by case: s].
by rewrite /Nb.cells /= nth_nil.
Qed.

Lemma run_cells_tables (cs : seq (Nb.state -> Nb.state)) :
  (forall i s, Nb.tables (nth id cs i s) = Nb.tables s) ->
  forall s, Nb.tables (Nb.run_cells cs s) = Nb.tables s.
Proof.
elim: cs => [|c cs IH] keep s //=.
rewrite /Nb.run_cells /= -/(Nb.run_cells cs (c s)) IH; last exact: (keep 0%N).
by move=> i s'; exact: (keep i.+1).
Qed.

(** C5: every cell from the first cut on, whether it builds a mask, plots
    or calls [print_runs], leaves the five stacked tables as it found them;
    so after any number of cells the tables are those the loading cell
    left. *)
Theorem cells_leave_tables (E : Externals) (D : Dtypes) :
  (forall (i : nat) (s : Nb.state),
     Nb.tables (nth id (Nb.cells E D) i s) = Nb.tables s)
  /\ (forall (tb : Tables) (k : nat),
        Nb.tables (Nb.run_cells (take k (Nb.cells E D)) (Nb.start tb)) = tb).
Proof.
split=> [i s|tb k]; first exact: cell_tables.
rewrite run_cells_tables // => i s.
case: (ltnP i k) => [lt_ik|le_ki]; first by rewrite nth_take ?cell_tables.
by rewrite nth_default // size_take_min; apply: leq_trans le_ki; exact: geq_minl.
Qed.

(** ** Grouping by date *)

Section Groups.


Variable E : Externals.



Lemma mem_unique (dates : seq nat) : np.unique dates =i dates.
Proof. by move=> d; rewrite /np.unique mem_sort mem_undup. Qed.

End Groups.



(** ** Loading *)

Section Loading.

Lemma load_file_skip (acc : Lists) (file : NightFile) :
  ~~ usable file -> load_file acc file = acc.
Proof. by rewrite /usable /load_file; case: (f_pedestals file); case: (f_flatfield file). Qed.

Lemma foldl_load_file (acc : Lists) (files : seq NightFile) :
  let kept := [seq f <- files | usable f] in
  foldl load_file acc files
  = mkLists
      (l_pixwise_runsummary acc ++ [seq f_pixwise_runsummary f | f <- kept])
      (l_runsummary acc ++ [seq map nan_to_zero (f_runsummary f) | f <- kept])
      (l_cosmics acc ++ [seq f_cosmics f | f <- kept])
      (l_flatfield acc ++ [seq odflt [::] (f_flatfield f) | f <- kept])
      (l_pedestals acc ++ [seq odflt [::] (f_pedestals f) | f <- kept]).
Proof.
elim: files acc => [|file files IH] acc /=; first by case: acc => *; rewrite !cats0.
rewrite IH /usable /load_file.
case Ep: (f_pedestals file) => [ped|] /=; last by [].
case Ef: (f_flatfield file) => [ff|] /=; last by [].
by rewrite Ep Ef /= !cat_rcons.
Qed.

Lemma load_loopE (files : seq NightFile) :
  let kept := [seq f <- files | usable f] in
  load_loop files
  = mkLists [seq f_pixwise_runsummary f | f <- kept]
            [seq map nan_to_zero (f_runsummary f) | f <- kept]
            [seq f_cosmics f | f <- kept]
            [seq odflt [::] (f_flatfield f) | f <- kept]
            [seq odflt [::] (f_pedestals f) | f <- kept].
Proof. by rewrite /load_loop foldl_load_file. Qed.

(** The loading cell completes exactly when some file is kept, and then
    every table is the concatenation, in file order, of the tables of the
    kept files. *)
Lemma load_tablesE (files : seq NightFile) :
  let kept := [seq f <- files | usable f] in
  load_tables files
  = if kept is [::] then None
    else Some (mkTables
                 (flatten [seq f_pixwise_runsummary f | f <- kept])
                 (flatten [seq map nan_to_zero (f_runsummary f) | f <- kept])
                 (flatten [seq f_cosmics f | f <- kept])
                 (flatten [seq odflt [::] (f_flatfield f) | f <- kept])
                 (flatten [seq odflt [::] (f_pedestals f) | f <- kept])).
Proof. by rewrite /load_tables load_loopE /=; case: (filter _ _). Qed.

Lemma load_tables_some (files : seq NightFile) (tb : Tables) :
  load_tables files = Some tb ->
  let kept := [seq f <- files | usable f] in
  tb = mkTables
         (flatten [seq f_pixwise_runsummary f | f <- kept])
         (flatten [seq map nan_to_zero (f_runsummary f) | f <- kept])
         (flatten [seq f_cosmics f | f <- kept])
         (flatten [seq odflt [::] (f_flatfield f) | f <- kept])
         (flatten [seq odflt [::] (f_pedestals f) | f <- kept]).
Proof. by rewrite load_tablesE; case: (filter _ _) => [|f kept] // [<-]. Qed.

Lemma runnumber_nan_to_zero (rows : seq RunRow) :
  [seq runnumber r | r <- [seq nan_to_zero r | r <- rows]]
  = [seq runnumber r | r <- rows].
Proof. by rewrite -map_comp. Qed.

Lemma map_flatten_map (A B F : Type) (g : A -> B) (h : F -> seq A) (fs : seq F) :
  [seq g x | x <- flatten [seq h f | f <- fs]]
  = flatten [seq [seq g x | x <- h f] | f <- fs].
Proof. by rewrite map_flatten -map_comp. Qed.

Lemma sub_runs_of_files (A : Type) (g : A -> nat) (h : NightFile -> seq A)
    (fs : seq NightFile) :
  (forall f, {subset [seq g x | x <- h f] <= runs_of_file f}) ->
  {subset [seq g x | x <- flatten [seq h f | f <- fs]]
   <= flatten [seq runs_of_file f | f <- fs]}.
Proof.
move=> sub; elim: fs => [|f fs IH] n //=.
by rewrite map_cat mem_cat => /orP[/sub|/IH] in_n; rewrite mem_cat in_n ?orbT.
Qed.

Lemma runs_of_tables_sub (files : seq NightFile) (tb : Tables) :
  load_tables files = Some tb ->
  {subset runs_of_tables tb
   <= flatten [seq runs_of_file f | f <- files & usable f]}.
Proof.
move/load_tables_some=> -> n; rewrite /runs_of_tables /= !mem_cat.
case/or4P=> [||| /orP[]]; apply: sub_runs_of_files => f m;
  rewrite /runs_of_file ?runnumber_nan_to_zero !mem_cat => ->; rewrite ?orbT //.
Qed.

End Loading.

Section LoadedTables.

Lemma filter_usable_skip (before after : seq NightFile) (file : NightFile) :
  ~~ usable file ->
  [seq f <- before ++ file :: after | usable f]
  = [seq f <- before ++ after | usable f].
Proof. by move=> skip; rewrite !filter_cat /= (negbTE skip). Qed.

Lemma sub_runs_of_kept (p : pred NightFile) (fs : seq NightFile) :
  {subset flatten [seq runs_of_file f | f <- fs & p f]
   <= flatten [seq runs_of_file f | f <- fs]}.
Proof.
elim: fs => [|f fs IH] n //=; case: (p f) => /=.
  by rewrite mem_cat => /orP[|/IH] in_n; rewrite mem_cat in_n ?orbT.
by move/IH=> in_n; rewrite mem_cat in_n orbT.
Qed.

Lemma final_printout_sub (E : Externals) (D : Dtypes) (tb : Tables) :
  {subset final_printout E D tb <= runs_of_tables tb}.
Proof.
move=> n; rewrite final_printoutE -mask_map_filter => /mem_mask in_n.
by rewrite /runs_of_tables !mem_cat in_n orbT.
Qed.

End LoadedTables.

(** C8: a file without the pedestals node or without the flatfield node
    leaves the five lists, and so the five stacked tables, as they are
    without it; a run number recorded in no other file is in none of the
    stacked tables and in no final list. *)
Theorem skipped_file_contributes_nothing (before after : seq NightFile)
    (file : NightFile) :
  ~~ usable file ->
  [/\ load_loop (before ++ file :: after) = load_loop (before ++ after),
      load_tables (before ++ file :: after) = load_tables (before ++ after)
    & forall tb : Tables,
        load_tables (before ++ file :: after) = Some tb ->
        forall n : nat,
          n \notin flatten [seq runs_of_file f | f <- before ++ after] ->
          n \notin runs_of_tables tb
          /\ (forall (E : Externals) (D : Dtypes), n \notin final_printout E D tb)].
Proof.
move=> skip.
have eq_loop : load_loop (before ++ file :: after) = load_loop (before ++ after).
  by rewrite !load_loopE /= filter_usable_skip.
split=> // [|tb loaded n absent]; first by rewrite /load_tables eq_loop.
have not_in : n \notin runs_of_tables tb.
  apply: contra absent => /(runs_of_tables_sub loaded).
  by rewrite filter_usable_skip //; exact: sub_runs_of_kept.
by split=> // E D; apply: contra not_in; exact: final_printout_sub.
Qed.

(** C6, as the code has it: the stacked run summary holds the rows of the
    run summaries of the kept files, file after file, so a run number occurs
    in it as often as in those files together; each run number of the table
    occurs in exactly one row when the kept files record no run number
    twice. *)
Theorem runsummary_rows (files : seq NightFile) (tb : Tables) :
  load_tables files = Some tb ->
  let stacked := [seq runnumber r | r <- dcheck_runsummary tb] in
  let recorded := [seq [seq runnumber r | r <- f_runsummary f]
                  | f <- files & usable f] in
  [/\ stacked = flatten recorded,
      forall n : nat, count_mem n stacked = sumn [seq count_mem n s | s <- recorded]
    & uniq (flatten recorded) ->
      forall n : nat, n \in stacked -> count_mem n stacked = 1%N].
Proof.
move/load_tables_some=> -> /=.
have -> : [seq runnumber r
          | r <- flatten [seq [seq nan_to_zero r | r <- f_runsummary f]
                         | f <- files & usable f]]
        = flatten [seq [seq runnumber r | r <- f_runsummary f]
                  | f <- files & usable f].
  rewrite map_flatten_map; congr flatten; apply: eq_map => f.
  exact: runnumber_nan_to_zero.
split=> // [n|once n in_n]; first by rewrite count_flatten -map_comp.
by rewrite count_uniq_mem // in_n.
Qed.

(** C6, as stated, fails: two night files that both record run 2934 give
    a stacked run summary with two rows of that run. *)
Lemma runsummary_repeats_run :
  ~ (forall (files : seq NightFile) (tb : Tables),
       load_tables files = Some tb ->
       uniq [seq runnumber r | r <- dcheck_runsummary tb]).
Proof.
pose r := Demo.good_run 2934 1605830400 120000 1.5.
pose file := Demo.night_file [:: r] [::] (Some [::]) (Some [::]).
by move/(_ [:: file; file] (Demo.tables_of [:: r; r] [::]) (erefl _)).
Qed.

(** ** The flatfield count *)

Section Flatfield.

Lemma nan_to_zero_not_nan (r : RunRow) : ~~ np.isnan (num_flatfield (nan_to_zero r)).
Proof.
rewrite /nan_to_zero /=; case nan_r: (np.isnan (num_flatfield r)); last by rewrite nan_r.
by [].
Qed.

(** No cut reads [num_flatfield]. *)
Lemma selected_set_num_flatfield (E : Externals) (D : Dtypes) (v : float)
    (r : RunRow) :
  Row.selected E D (set_num_flatfield v r) = Row.selected E D r.
Proof. by []. Qed.

Lemma final_mask_nan_to_zero (E : Externals) (D : Dtypes) (rows : seq RunRow) :
  final_mask E D [seq nan_to_zero r | r <- rows] = final_mask E D rows.
Proof. by rewrite !final_maskE -map_comp. Qed.

Lemma pulse30_nan_to_zero (E : Externals) (D : Dtypes) (rows : seq RunRow)
    (C : seq Cosmics.row) (m : bitseq) :
  pulse30_after E D [seq nan_to_zero r | r <- rows] C m = pulse30_after E D rows C m.
Proof.
rewrite /pulse30_after /Subrun.run_list runnumber_nan_to_zero.
rewrite /Subrun.pulse30_std_cut size_map.
elim: (zip _ _) (np.full_true _) => [|sr srs IH] cut //=.
by rewrite IH /Subrun.pulse30_step -map_comp.
Qed.

End Flatfield.

(** C9: in the stacked run summary no [num_flatfield] is NaN, each row
    being the row of its file with a NaN there replaced by 0; no cut reads
    that column, so the mask of the final cell, the pulse-30 cut and the
    final list are what they are on the rows as the files have them: a run
    whose count was NaN is in the final list exactly when it passes the six
    cuts. *)
Theorem flatfield_nan_is_zero (files : seq NightFile) (tb : Tables) :
  load_tables files = Some tb ->
  let raw := flatten [seq f_runsummary f | f <- files & usable f] in
  [/\ dcheck_runsummary tb = [seq nan_to_zero r | r <- raw]
      /\ (forall r : RunRow,
            num_flatfield (nan_to_zero r)
            = if np.isnan (num_flatfield r) then 0 else num_flatfield r),
      all (fun r => ~~ np.isnan (num_flatfield r)) (dcheck_runsummary tb),
      forall (E : Externals) (D : Dtypes) (v : float) (r : RunRow),
        Row.selected E D (set_num_flatfield v r) = Row.selected E D r,
      forall (E : Externals) (D : Dtypes) (m : bitseq),
        final_mask E D (dcheck_runsummary tb) = final_mask E D raw
        /\ pulse30_after E D (dcheck_runsummary tb) (dcheck_cosmics tb) m
           = pulse30_after E D raw (dcheck_cosmics tb) m
    & forall (E : Externals) (D : Dtypes),
        final_printout E D tb = [seq runnumber r | r <- raw & Row.selected E D r]].
Proof.
move=> loaded raw.
have eq_rows : dcheck_runsummary tb = [seq nan_to_zero r | r <- raw].
  by rewrite (load_tables_some loaded) /= /raw map_flatten -map_comp.
split=> //.
- rewrite eq_rows all_map (@eq_all _ _ predT) ?all_predT // => r /=.
  exact: nan_to_zero_not_nan.
- by move=> E D m; rewrite eq_rows final_mask_nan_to_zero pulse30_nan_to_zero.
move=> E D; rewrite final_printoutE eq_rows filter_map -map_comp.
by apply: eq_map.
Qed.

(** ** Comparisons of binary64 numbers *)

Section FloatOrder.

Lemma SFcompare_antisym (f1 f2 : spec_float) :
  SFcompare f2 f1 = omap CompOpp (SFcompare f1 f2).
Proof.
case: f1 => [s1|s1||s1 m1 e1]; case: f2 => [s2|s2||s2 m2 e2] //=;
  try by [case: s1 | case: s2 | case: s1; case: s2].
case: s1; case: s2 => //=; rewrite (Z.compare_antisym e1 e2);
  case: (Z.compare e1 e2) => //=;
  by rewrite -(Pos.compare_cont_antisym m1 m2 Eq) //=; case: (Pos.compare_cont _ _ _).
Qed.

Lemma SFcompare_refl (f : spec_float) :
  SFcompare f f = if sf_is_nan f then None else Some Eq.
Proof.
case: f => [s|s||s m e] //=; first by case: s.
by case: s; rewrite Z.compare_refl Pos.compare_cont_refl.
Qed.

Lemma is_nan_spec (x : float) : is_nan x = sf_is_nan (Prim2SF x).
Proof.
by rewrite /is_nan eqb_spec /SFeqb SFcompare_refl; case: (sf_is_nan _).
Qed.

Lemma SFcompare_nan (f1 f2 : spec_float) :
  SFcompare f1 f2 = None -> sf_is_nan f1 || sf_is_nan f2.
Proof.
by case: f1 => [s1|s1||s1 m1 e1]; case: f2 => [s2|s2||s2 m2 e2] //=; rewrite ?orbT.
Qed.

Lemma nan_SFcompare (f1 f2 : spec_float) :
  sf_is_nan f1 || sf_is_nan f2 -> SFcompare f1 f2 = None.
Proof.
by case: f1 => [s1|s1||s1 m1 e1]; case: f2 => [s2|s2||s2 m2 e2].
Qed.

(** [x] is not below [y] when [x] is at least [y], or one of them is NaN. *)
Lemma not_ltb (x y : float) : ~~ (x <? y) = (y <=? x) || is_nan x || is_nan y.
Proof.
rewrite ltb_spec leb_spec !is_nan_spec /SFltb /SFleb.
rewrite (SFcompare_antisym (Prim2SF x) (Prim2SF y)).
case cmp: (SFcompare (Prim2SF x) (Prim2SF y)) => [[| |]|] //=.
- case nans: (sf_is_nan (Prim2SF x) || sf_is_nan (Prim2SF y)) => //.
  by have := nan_SFcompare nans; rewrite cmp.
- by rewrite (SFcompare_nan cmp).
Qed.

Lemma unstableE (E : Externals) (D : Dtypes) (C : seq Cosmics.row) (run : nat) :
  let std := Subrun.std_of_run E D C npe30 run in
  unstable E D C run = (0.2 <=? std) || is_nan std.
Proof. by rewrite /unstable not_ltb orbF. Qed.

End FloatOrder.

(** ** The pulse-30 cut, row by row *)

Section Pulse30.
Variable E : Externals.
Variable D : Dtypes.
Variable T : seq RunRow.
Variable C : seq Cosmics.row.

Lemma has_eq_and (c : pred nat) (x : nat) (rl : seq nat) :
  has (fun run => (x == run) && c run) rl = (x \in rl) && c x.
Proof.
elim: rl => [|run rl IH] //=; rewrite IH in_cons.
by case: (x =P run) => [->|_] /=; case: (c run) => //=; rewrite andbC.
Qed.

Lemma foldl_pulse30 (f : pred RunRow) (rl : seq nat) :
  foldl (Subrun.pulse30_step T) [seq f r | r <- T]
        (zip [seq Subrun.std_of_run E D C npe30 run
             | run <- rl] rl)
  = [seq f r && ~~ has (fun run => (runnumber r == run) && unstable E D C run) rl
    | r <- T].
Proof.
elim: rl f => [|run rl IH] f /=; first by apply: eq_map => r; rewrite andbT.
rewrite /Subrun.pulse30_step /= -/(Subrun.pulse30_step T).
case stable: (_ <? _).
  rewrite IH; apply: eq_map => r.
  by rewrite /unstable stable /= andbF.
rewrite /np.assign_false zip_map -map_comp IH; apply: eq_map => r /=.
have -> : unstable E D C run by rewrite /unstable stable.
by rewrite andbT; case: (runnumber r == run); rewrite ?andbF.
Qed.

Lemma full_true_map : np.full_true (size T) = [seq true | _ <- T].
Proof. by rewrite /np.full_true; elim: T => [|r rows IH] //=; rewrite IH. Qed.

Lemma pulse30_std_cutE (rl : seq nat) :
  Subrun.pulse30_std_cut E D T C rl
  = [seq ~~ ((runnumber r \in rl) && unstable E D C (runnumber r)) | r <- T].
Proof.
rewrite /Subrun.pulse30_std_cut /= /Subrun.std_of_runs full_true_map foldl_pulse30.
by apply: eq_map => r /=; rewrite has_eq_and.
Qed.

(** Built from the runs a row-wise mask selects, the cut spares a row
    unless the test selects a row of the same run and the run is unstable. *)
Lemma pulse30_afterE (q : pred RunRow) :
  pulse30_after E D T C [seq q r | r <- T]
  = [seq ~~ (has (fun r' => (runnumber r' == runnumber r) && q r') T
             && unstable E D C (runnumber r)) | r <- T].
Proof.
rewrite /pulse30_after pulse30_std_cutE /Subrun.run_list mask_map_filter.
by apply: eq_map => r; rewrite mem_selection_rowwise.
Qed.

Lemma eq_In_map (A B : Type) (f g : A -> B) (s : seq A) :
  (forall x, List.In x s -> f x = g x) -> [seq f x | x <- s] = [seq g x | x <- s].
Proof.
elim: s => [|x s IH] //= eq_fg; rewrite (eq_fg x) ?IH //; first by left.
by move=> y in_y; apply: eq_fg; right.
Qed.

Lemma In_has (q : pred RunRow) (r : RunRow) :
  List.In r T -> q r -> has (fun r' => (runnumber r' == runnumber r) && q r') T.
Proof.
elim: T => [|r' rows IH] //= [->|in_r] q_r; first by rewrite eqxx q_r.
by rewrite (IH in_r q_r) orbT.
Qed.

(** On the rows the final mask keeps, the cut finds their run in the run
    list whatever coarser test the list was drawn with. *)
Lemma and_pulse30_after (p q : pred RunRow) :
  (forall r, p r -> q r) ->
  [seq p r | r <- T] &&& pulse30_after E D T C [seq q r | r <- T]
  = [seq p r && ~~ unstable E D C (runnumber r) | r <- T].
Proof.
move=> sub_pq; rewrite pulse30_afterE and_map; apply: eq_In_map => r in_r.
by case p_r: (p r) => //=; rewrite (In_has in_r (sub_pq r p_r)).
Qed.

End Pulse30.

(** ** Conjunctions in any order *)

Section Conjoin.





Lemma nth_and_ (a b : bitseq) (k : nat) :
  nth false (a &&& b) k = nth false a k && nth false b k.
Proof.
elim: a b k => [|x a IH] [|y b] [|k] //=; rewrite ?andbF //.
by rewrite /np.and_ /= -/(np.and_ a b) IH.
Qed.

Variable E : Externals.
Variable D : Dtypes.
Variable T : seq RunRow.

Lemma six_masksE : six_masks E D T = [seq [seq p r | r <- T] | p <- six_tests E D].
Proof.
by rewrite /six_masks source_maskE zenith_maskE rate_maskE pix_rate_maskE.
Qed.

Lemma conjoin_rowwise (f : pred RunRow) (ps : seq (pred RunRow)) :
  foldl np.and_ [seq f r | r <- T] [seq [seq p r | r <- T] | p <- ps]
  = [seq f r && all (fun p : pred RunRow => p r) ps | r <- T].
Proof.
elim: ps f => [|p ps IH] f /=; first by apply: eq_map => r; rewrite andbT.
by rewrite and_map IH; apply: eq_map => r; rewrite andbA.
Qed.

Lemma selected_all (r : RunRow) :
  Row.selected E D r = all (fun p : pred RunRow => p r) (six_tests E D).
Proof. by rewrite /Row.selected /= andbT. Qed.

Lemma conjoin_six : conjoin (size T) (six_masks E D T) = final_mask E D T.
Proof.
rewrite /conjoin six_masksE full_true_map conjoin_rowwise final_maskE.
by apply: eq_map => r; rewrite selected_all.
Qed.

(** Whichever of the six masks were conjoined before it, the pulse-30 cut
    agrees with the one of the notebook on the rows the final mask keeps. *)
Lemma and_pulse30_applied (C : seq Cosmics.row) (applied : seq bitseq) :
  subseq applied (six_masks E D T) ->
  final_mask E D T &&& pulse30_after E D T C (conjoin (size T) applied)
  = [seq Row.selected E D r && ~~ unstable E D C (runnumber r) | r <- T].
Proof.
rewrite six_masksE => /subseqP[bm _ ->].
rewrite -map_mask /conjoin full_true_map conjoin_rowwise final_maskE.
apply: and_pulse30_after => r; rewrite selected_all /= => all_r.
exact: all_mask.
Qed.

End Conjoin.




(** C10, as the code has it: the run list of the last cells holds the runs
    of the rows the final mask keeps; the cut is [False] on a row exactly
    when its run is in that list and the standard deviation of the rate of
    pulses above 30 p.e. over its subruns is not below 0.2, that is, is at
    least 0.2 or is NaN; on a row whose run is not in the list it is [True];
    and a row the final mask rejects stays rejected when the cut is
    conjoined. *)
Theorem pulse30_cuts_only_survivors (E : Externals) (D : Dtypes) (tb : Tables) :
  let T := dcheck_runsummary tb in
  let st := Nb.run E D tb in
  let rl := Nb.run_list st in
  let cut := Nb.pulse30_std_cut st in
  let std := fun r : RunRow =>
    Subrun.std_of_run E D (dcheck_cosmics tb) npe30
                      (runnumber r) in
  [/\ rl = [seq runnumber r | r <- T & Row.selected E D r],
      cut = [seq ~~ ((runnumber r \in rl) && ((0.2 <=? std r) || is_nan (std r)))
            | r <- T],
      forall k : nat,
        k < size T -> nth 0%N [seq runnumber r | r <- T] k \notin rl ->
        nth false cut k = true,
      final_mask E D T &&& cut
        = [seq Row.selected E D r && ~~ ((0.2 <=? std r) || is_nan (std r)) | r <- T]
    & forall k : nat,
        nth false (final_mask E D T) k = false ->
        nth false (final_mask E D T &&& cut) k = false].
Proof.
move=> T st rl cut std.
have rlE : rl = [seq runnumber r | r <- T & Row.selected E D r].
  by rewrite /rl run_run_list /Subrun.run_list final_maskE mask_map_filter.
have cutE : cut = [seq ~~ ((runnumber r \in rl)
                          && ((0.2 <=? std r) || is_nan (std r))) | r <- T].
  rewrite /cut run_pulse30 /pulse30_after pulse30_std_cutE -run_run_list.
  by apply: eq_map => r; rewrite unstableE.
split=> // [k lt_k notin_rl||k rejected]; last by rewrite nth_and_ rejected.
- rewrite cutE; elim: (T) k lt_k notin_rl => [|r rows IH] [|k] //=.
    by move=> _ /negbTE->.
  by move=> lt_k; exact: IH.
have := and_pulse30_applied (dcheck_cosmics tb) (subseq_refl (six_masks E D T)).
rewrite conjoin_six /cut run_pulse30 => ->.
by apply: eq_map => r; rewrite unstableE.
Qed.

(** C10, as stated, fails: a run the final mask keeps and that has no row
    in the subrun-wise cosmics table has a NaN standard deviation; the loop
    sets its entry to [False], and NaN is not at least 0.2. *)
Lemma pulse30_cuts_nan_std :
  ~ (forall (E : Externals) (D : Dtypes) (tb : Tables) (k : nat),
       let T := dcheck_runsummary tb in
       let st := Nb.run E D tb in
       let run := nth 0%N [seq runnumber r | r <- T] k in
       k < size T -> nth true (Nb.pulse30_std_cut st) k = false ->
       (run \in Nb.run_list st)
       && (0.2 <=? Subrun.std_of_run E D (dcheck_cosmics tb) npe30 run)).
Proof.
move/(_ (Demo.externals (-10) 0.1) Demo.double
        (Demo.tables_of [:: Demo.good_run 2934 1605830400 120000 1.5] [::])
        0%N isT (erefl _)).
by vm_compute.
Qed.

(** ** The theorems on the demonstration runs *)


Lemma reports_shrink_witness :
  (0 <= 6)%N
  /\ (6 < size (run_arrays (Nb.stdout (Nb.run Demo.dark Demo.double Demo.tables))))%N
  /\ subseq (nth [::] (run_arrays (Nb.stdout (Nb.run Demo.dark Demo.double Demo.tables))) 6)
            (nth [::] (run_arrays (Nb.stdout (Nb.run Demo.dark Demo.double Demo.tables))) 0).
Proof.
split; first by []. split; first by vm_compute.
apply: (proj2 (reports_shrink Demo.dark Demo.double Demo.tables)); first by [].
by vm_compute.
Defined.


Lemma skipped_file_contributes_nothing_witness :
  ~~ usable Demo.night_without_pedestals
  /\ load_tables [:: Demo.night; Demo.night_without_pedestals]
     = load_tables [:: Demo.night].
Proof.
split; first by [].
by have [_ same _] :=
  @skipped_file_contributes_nothing [:: Demo.night] [::]
     Demo.night_without_pedestals isT.
Defined.

Lemma runsummary_rows_witness :
  load_tables [:: Demo.night] = Some Demo.tables
  /\ [seq runnumber r | r <- dcheck_runsummary Demo.tables]
     = flatten [:: [seq runnumber r | r <- Demo.rows]].
Proof.
split; first by [].
by have [-> _ _] := @runsummary_rows [:: Demo.night] Demo.tables (erefl _).
Defined.

Lemma flatfield_nan_is_zero_witness :
  load_tables [:: Demo.night_without_flatfield_events]
    = Some (Demo.tables_of [:: set_num_flatfield 0 Demo.run_2940] [::])
  /\ final_printout Demo.dark Demo.double
       (Demo.tables_of [:: set_num_flatfield 0 Demo.run_2940] [::])
     = [:: 2940%N].
Proof.
split; first by [].
have [_ _ _ _ ->] :=
  @flatfield_nan_is_zero [:: Demo.night_without_flatfield_events]
     (Demo.tables_of [:: set_num_flatfield 0 Demo.run_2940] [::]) (erefl _).
by vm_compute.
Defined.


Lemma pulse30_cuts_only_survivors_witness :
  (1 < size (dcheck_runsummary Demo.tables))%N
  /\ nth 0%N [seq runnumber r | r <- dcheck_runsummary Demo.tables] 1
       \notin Nb.run_list (Nb.run Demo.dark Demo.double Demo.tables)
  /\ nth false (Nb.pulse30_std_cut (Nb.run Demo.dark Demo.double Demo.tables)) 1 = true.
Proof.
split; first by []. split; first by vm_compute.
have [_ _ spared _ _] := pulse30_cuts_only_survivors Demo.dark Demo.double Demo.tables.
by apply: spared; vm_compute.
Defined.

(** * Further properties of the cells *)

(** ** When [print_runs] returns, and what it has written when it does not *)

Section PrintRunsOutcome.
Variable E : Externals.

Lemma comprehension_all (A B : Type) (f : A -> option B) (ts : seq A) :
  isSome (comprehension f ts) = all (fun t => isSome (f t)) ts.
Proof.
elim: ts => [|t ts IH] //=; case: (f t) => [d|] //=.
by rewrite -IH; case: (comprehension f ts).
Qed.

Lemma all_mask_and (A : Type) (p : pred A) (a b : bitseq) (s : seq A) :
  all p (mask a s) -> all p (mask (a &&& b) s).
Proof.
elim: s a b => [|x s IH] a b; first by rewrite !mask0.
case: a b => [|u a] [|v b] //=.
rewrite /np.and_ /= -/(np.and_ a b).
case: u => /=; last exact: IH.
by case/andP=> px all_s; case: v => /=; rewrite ?px /=; exact: IH.
Qed.

End PrintRunsOutcome.

(** X1: [print_runs] returns exactly when the mask has the length of the
    table and, with [by_date], every masked time stamp less half a day has
    a date. *)
Theorem print_runs_returns (E : Externals) (T : seq RunRow) (m : bitseq)
    (by_date : bool) :
  returned (print_runs E T m by_date).2
  = (size m == size T)
    && (by_date ==> all (fun r => isSome (utc_date E (time r - 0.5 * 86400)))
                        (mask m T)).
Proof.
case: (size m =P size T) => [sz|/eqP neq] /=; last first.
  by rewrite /print_runs /np.getitem !size_map (negbTE neq).
rewrite print_runsE //; case: by_date => //=.
rewrite -(all_map (fun r => time r) (fun t => isSome (utc_date E (t - 0.5 * 86400)))).
by rewrite -comprehension_all; case: (comprehension _ _).
Qed.

(** X2: with a mask of another length than the table, [print_runs] writes
    the count line and raises before anything else is written. *)
Theorem print_runs_wrong_length (E : Externals) (T : seq RunRow) (m : bitseq)
    (by_date : bool) :
  size m != size T ->
  print_runs E T m by_date = ([:: Wobble_runs (count id m)], Raised).
Proof.
by move=> neq; rewrite /print_runs /np.getitem !size_map (negbTE neq).
Qed.

(** X3: when no entry of the mask is [True], [print_runs] announces 0 runs,
    sums over no row, prints an empty array and, with [by_date], no date
    line; it returns whatever the time stamps of the table are. *)
Theorem print_runs_nothing_selected (E : Externals) (T : seq RunRow)
    (m : bitseq) (by_date : bool) :
  size m = size T -> count id m = 0%N ->
  print_runs E T m by_date
  = ([:: Wobble_runs 0; Observation_time (np_sum E [::] / 3600); Blank;
         Run_array [::] (Entries [::])]
     ++ (if by_date then [:: Blank; Blank] else [::]),
     Returned).
Proof.
move=> sz none; rewrite print_runsE // none.
have -> : mask m T = [::].
  by apply: size0nil; rewrite size_mask.
by case: by_date.
Qed.

(** ** The date lines *)

Section DateLines.
Variable E : Externals.

Lemma runs_of_date_subseq (dates runs : seq nat) (d : nat) :
  size dates = size runs -> subseq (runs_of_date dates runs d) runs.
Proof.
move=> sz; rewrite /runs_of_date -[X in subseq _ X](@unzip2_zip _ _ dates runs) ?sz //.
by apply: map_subseq; exact: filter_subseq.
Qed.

Lemma runs_of_date_nonempty (dates runs : seq nat) (d : nat) :
  size dates = size runs -> d \in dates -> runs_of_date dates runs d != [::].
Proof.
rewrite /runs_of_date.
elim: dates runs => [|x dates IH] [|run runs] //= [sz].
rewrite in_cons; case: (x =P d) => [_|neq] //=.
by rewrite eq_sym; move/eqP: neq => /negbTE-> /=; exact: IH.
Qed.

Lemma size_unique (dates : seq nat) : size (np.unique dates) <= size dates.
Proof. by rewrite /np.unique size_sort size_undup. Qed.

Lemma date_groups_print_runs (T : seq RunRow) (m : bitseq) :
  size m = size T ->
  date_groups (print_runs E T m true).1
  = if comprehension (fun t => utc_date E (t - 0.5 * 86400))
                     [seq time r | r <- mask m T] is Some dates
    then [seq (id.1.+1, id.2,
               runs_of_date dates [seq runnumber r | r <- mask m T] id.2)
         | id <- zip (iota 0 (size (np.unique dates))) (np.unique dates)]
    else [::].
Proof.
move=> sz; rewrite print_runsE //=.
case: (comprehension _ _) => [dates|] //=.
by rewrite /date_groups /= -/(date_groups _) date_groups_date_lines.
Qed.

End DateLines.

(** X4: with [by_date], every date line lists at least one run, lists its
    runs in the order of the printed run array, and there are no more date
    lines than runs announced in the first line. *)
Theorem date_lines_are_nonempty (E : Externals) (T : seq RunRow) (m : bitseq) :
  size m = size T ->
  let groups := date_groups (print_runs E T m true).1 in
  size groups <= count id m
  /\ forall g, g \in groups ->
       g.2 != [::] /\ subseq g.2 [seq runnumber r | r <- mask m T].
Proof.
move=> sz groups; rewrite {}/groups date_groups_print_runs //.
case dated: (comprehension _ _) => [dates|] //.
have sz_dates : size dates = size [seq runnumber r | r <- mask m T].
  by have := congr1 size (comprehension_map dated); rewrite !size_map.
split.
  rewrite size_map size_zip size_iota minnn (leq_trans (size_unique dates)) //.
  by rewrite sz_dates size_map size_mask.
move=> g /mapP[[i d] in_zip ->] /=; split; last exact: runs_of_date_subseq.
apply: runs_of_date_nonempty => //.
rewrite -(mem_unique dates).
have : d \in unzip2 (zip (iota 0 (size (np.unique dates))) (np.unique dates)).
  by apply/mapP; exists (i, d).
by rewrite unzip2_zip ?size_iota.
Qed.

(** X5: a [by_date] report that returns for a mask returns for the mask
    conjoined with any other; in the notebook, the reports without
    [by_date] always return, and if the first [by_date] report returns, so
    do the three later ones. *)
Theorem narrower_report_returns (E : Externals) (D : Dtypes) (T : seq RunRow) :
  (forall a b : bitseq,
     size a = size T -> size b = size T ->
     returned (print_runs E T a true).2 ->
     returned (print_runs E T (a &&& b) true).2)
  /\ (forall i : nat, (i < 7)%N ->
        returned (print_runs E T (nth [::] (report_masks E D T) i) false).2)
  /\ (returned (print_runs E T (nth [::] (report_masks E D T) 1) true).2 ->
      forall i : nat, (0 < i < 7)%N ->
        returned (print_runs E T (nth [::] (report_masks E D T) i) true).2).
Proof.
have narrow a b : size a = size T -> size b = size T ->
    returned (print_runs E T a true).2 ->
    returned (print_runs E T (a &&& b) true).2.
  move=> sza szb; rewrite !print_runs_returns size_and_ sza szb minnn eqxx /=.
  exact: all_mask_and.
have sz_report i : (i < 7)%N -> size (nth [::] (report_masks E D T) i) = size T.
  exact: (@size_report_mask E D (mkTables [::] T [::] [::] [::])).
split=> //; split=> [i lt_i|first i /andP[i_pos lt_i]].
  by rewrite print_runs_returns sz_report // eqxx.
have sz3 := sz_report 1%N isT.
move: first; rewrite /report_masks /= in sz3 *.
set m3 := _ &&& _ &&& Cut.ped_ok_mask T in sz3 * => first.
have szs : [/\ size (Cut.ped_std_cut T) = size T, size (Cut.rate_mask D T) = size T
             & size (Cut.pix_rate_mask D T) = size T].
  by rewrite rate_maskE pix_rate_maskE /Cut.ped_std_cut !size_map.
case: szs => sz_ps sz_r sz_px.
have first4 := narrow _ _ sz3 sz_ps first.
have sz4 : size (m3 &&& Cut.ped_std_cut T) = size T by rewrite size_and_ sz3 sz_ps minnn.
have first5 := narrow _ _ sz4 sz_r first4.
have sz5 : size (m3 &&& Cut.ped_std_cut T &&& Cut.rate_mask D T) = size T.
  by rewrite size_and_ sz4 sz_r minnn.
have first6 := narrow _ _ sz5 sz_px first5.
by case: i i_pos lt_i => [|[|[|[|[|[|[|i]]]]]]].
Qed.

(** ** More on loading *)

(** X6: when every file is skipped, or none was found, the loop leaves the
    five lists empty and [vstack] raises: the loading cell completes only if
    some file has both nodes. *)
Theorem load_tables_completes (files : seq NightFile) :
  ~~ has usable files ->
  load_loop files = no_lists /\ load_tables files = None.
Proof.
rewrite has_count -size_filter -leqNgt leqn0 => /eqP/size0nil none.
by rewrite load_tablesE load_loopE /= none.
Qed.

(** X7: loading one list of files after another stacks, table by table,
    what each list loads; a list in which every file is skipped adds
    nothing. *)
Theorem load_tables_cat (a b : seq NightFile) :
  load_tables (a ++ b)
  = match load_tables a, load_tables b with
    | Some ta, Some tb => Some (cat_tables ta tb)
    | Some ta, None => Some ta
    | None, other => other
    end.
Proof.
rewrite !load_tablesE /= filter_cat.
case: (filter usable a) => [|fa ka] //=; case: (filter usable b) => [|fb kb] /=.
  by rewrite cats0.
by rewrite /cat_tables /= !map_cat !flatten_cat /= !catA.
Qed.

(** X8: the replacement of NaN flatfield counts leaves a row with a count
    that is not NaN as it is, changes no other column of any row, and has
    no effect when applied again. *)
Theorem nan_to_zero_only_nan (r : RunRow) :
  [/\ ~~ np.isnan (num_flatfield r) -> nan_to_zero r = r,
      set_num_flatfield (num_flatfield r) (nan_to_zero r) = r
    & nan_to_zero (nan_to_zero r) = nan_to_zero r].
Proof.
split=> [not_nan||]; first by case: r not_nan => * /=; rewrite /nan_to_zero /= ifN.
  by case: r.
rewrite {1}/nan_to_zero (negbTE (nan_to_zero_not_nan r)).
by case: (nan_to_zero r).
Qed.

(** ** File discovery *)

Section Discovery.

Lemma str_le_total : total Files.str_le.
Proof.
elim=> [|x a IH] [|y b] //=.
by case: (ltngtP x y) => //= _; exact: IH.
Qed.

Lemma str_le_trans : transitive Files.str_le.
Proof.
elim=> [|y b IH] [|x a] [|z c] //=.
case: (ltngtP x y) => //= [lt_xy|eq_xy]; case: (ltngtP y z) => //= [lt_yz|eq_yz].
- by move=> _ _; rewrite (ltn_trans lt_xy lt_yz).
- by move=> _ _; rewrite -eq_yz lt_xy.
- by move=> _ _; rewrite eq_xy lt_yz.
by move=> le_ab le_bc; rewrite eq_xy eq_yz eqxx ltnn /=; exact: IH le_ab le_bc.
Qed.

Lemma str_le_anti : antisymmetric Files.str_le.
Proof.
elim=> [|x a IH] [|y b] //=.
case: (ltngtP x y) => //= eq_xy /IH ->.
by rewrite eq_xy.
Qed.

End Discovery.

(** X9: the list of files the loading cell walks through is the globbed
    list in ascending order of path, so neither it nor the stacked tables
    depend on the order in which [glob] returns the paths. *)
Theorem discovery_order (read : seq nat -> NightFile) (globbed : seq (seq nat)) :
  [/\ sorted Files.str_le (Files.datacheck_files globbed),
      perm_eq (Files.datacheck_files globbed) globbed
    & forall globbed' : seq (seq nat),
        perm_eq globbed globbed' ->
        Files.datacheck_files globbed = Files.datacheck_files globbed'
        /\ Files.load read globbed = Files.load read globbed'].
Proof.
split=> [||globbed' same].
- exact: (sort_sorted str_le_total).
- by rewrite /Files.datacheck_files perm_sort.
have eq_files : Files.datacheck_files globbed = Files.datacheck_files globbed'.
  exact/(perm_sortP str_le_total str_le_trans str_le_anti).
by rewrite /Files.load eq_files.
Qed.

(** ** NaN and the thresholds *)

Section NanFails.

Lemma ltb_not_nan (x y : float) : (x <? y) -> ~~ is_nan x && ~~ is_nan y.
Proof.
move=> lt_xy; have := not_ltb x y; rewrite lt_xy /= -orbA.
by case: (is_nan x) => /=; case: (is_nan y) => //=; rewrite orbT.
Qed.

Lemma ltb_leb_excl (x y : float) : ~~ ((x <? y) && (y <=? x)).
Proof.
by have := not_ltb x y; case: (x <? y) => //=; case: (y <=? x).
Qed.

Lemma ltb_or_leb (x y : float) :
  ~~ is_nan x -> ~~ is_nan y -> (x <? y) || (y <=? x).
Proof.
move=> /negbTE nan_x /negbTE nan_y; have := not_ltb x y.
by rewrite nan_x nan_y !orbF; case: (x <? y) => //= <-.
Qed.

End NanFails.

(** X10: a row the final mask keeps has no NaN among the quantities the six
    cuts test: a NaN distance, zenith angle, pedestal count, pedestal noise
    or rate fails its cut. *)
Theorem selected_has_no_nan (E : Externals) (D : Dtypes) (r : RunRow) :
  Row.selected E D r -> all (fun x => ~~ is_nan x) (tested E D r).
Proof.
rewrite /Row.selected /tested /=.
case/andP=> /andP[_ /ltb_not_nan/andP[-> _]].
case/andP=> /andP[/ltb_not_nan/andP[-> _] _].
case/andP; rewrite /Row.ped_ok /np.isfinite /is_finite negb_or => /andP[-> _].
case/andP=> /ltb_not_nan/andP[-> _].
case/andP=> /ltb_not_nan/andP[_ ->].
by case/andP=> /ltb_not_nan/andP[_ ->] /ltb_not_nan/andP[_ ->].
Qed.

(** ** The runs removed for their pedestals *)

Section Removed.

Lemma invert_map (A : Type) (p : pred A) (s : seq A) :
  np.invert [seq p x | x <- s] = [seq ~~ p x | x <- s].
Proof. by rewrite /np.invert -map_comp. Qed.

Lemma nth_invert (a : bitseq) (k : nat) :
  nth false (np.invert a) k = (k < size a) && ~~ nth false a k.
Proof. by elim: a k => [|x a IH] [|k] //=; rewrite IH. Qed.

End Removed.

Section RemovedTexts.
Variable E : Externals.

Lemma removed_texts_cat (a b : seq printed) :
  removed_texts (a ++ b) = removed_texts a ++ removed_texts b.
Proof. by rewrite /removed_texts map_cat flatten_cat. Qed.

Lemma removed_texts_date_lines (dates runs : seq nat) :
  removed_texts (date_lines dates runs) = [::].
Proof.
rewrite /date_lines /removed_texts -map_comp.
by elim: (zip _ _) => [|x s IH].
Qed.

(** [print_runs] writes no 'Removed runs:' line. *)
Lemma removed_texts_print_runs (T : seq RunRow) (m : bitseq) (by_date : bool) :
  removed_texts (print_runs E T m by_date).1 = [::].
Proof.
rewrite /print_runs.
case: (np.getitem _ m) => [et|] //; case: (np.getitem _ m) => [runs|] //.
case: by_date => //; case: (np.getitem _ m) => [ts|] //.
case: (comprehension _ _) => [dates|] //=.
by rewrite /removed_texts /= -/(removed_texts _) removed_texts_date_lines.
Qed.

Lemma removed_texts_report_lines (D : Dtypes) (T : seq RunRow) :
  removed_texts (report_lines E D T) = [::].
Proof.
rewrite /report_lines; case: (_.2); last exact: removed_texts_print_runs.
by rewrite !removed_texts_cat !removed_texts_print_runs.
Qed.

End RemovedTexts.

(** X11: the one array the cells write after 'Removed runs:' holds the runs
    whose pedestal count is not finite, and its text is that of
    [np.array2string]; those rows and the rows [ped_ok_mask] keeps make up
    the table, and no row listed there is selected by any report from the
    one of the zenith cell on. *)
Theorem removed_runs_stay_out (E : Externals) (D : Dtypes) (tb : Tables) :
  let T := dcheck_runsummary tb in
  let removed := [seq runnumber r | r <- T & ~~ np.isfinite (num_pedestals r)] in
  [/\ removed_texts (Nb.stdout (Nb.run E D tb)) = [:: np.array2string removed],
      (size removed + count id (Nb.ped_ok_mask (Nb.run E D tb)))%N = size T
    & forall i k : nat, (0 < i < 7)%N ->
        nth false (np.invert (Nb.ped_ok_mask (Nb.run E D tb))) k ->
        ~~ nth false (nth [::] (report_masks E D T) i) k].
Proof.
move=> T removed; split.
- rewrite run_stdout !removed_texts_cat !removed_texts_print_runs.
  rewrite removed_texts_report_lines /removed_texts /=.
  by rewrite /Cut.ped_ok_mask invert_map mask_map_filter.
- rewrite [Nb.ped_ok_mask _]/(Cut.ped_ok_mask T) /Cut.ped_ok_mask.
  by rewrite size_map size_filter count_map addnC count_predC.
move=> i k /andP[i_pos lt_i].
rewrite [Nb.ped_ok_mask _]/(Cut.ped_ok_mask T) nth_invert => /andP[_ /negbTE out].
case: i i_pos lt_i => [|[|[|[|[|[|[|i]]]]]]] // _ _;
  by rewrite /report_masks /final_mask /= !nth_and_ out !(andbF, andFb).
Qed.

(** ** Shapes *)

Section Utctime.
Variable E : Externals.

Lemma utctime_comprehension (T : seq RunRow) :
  comprehension (fun x => if utc_date E x is Some _ then Some x else None)
                [seq time r | r <- T]
  = if convertible E T then Some [seq time r | r <- T] else None.
Proof.
rewrite /convertible; elim: T => [|r T IH] //=.
by case: (utc_date E (time r)) => [d|] //=; rewrite IH; case: (all _ _).
Qed.

End Utctime.

(** X12: after the cells, every boolean variable that the cells always bind
    and that indexes the run summary has its length, as have the two
    derived columns; when every time stamp of the table converts, [utctime],
    [no_moon] and [moon_fraction] are bound and hold one entry per row, and
    otherwise none of the three is bound; [runselection] has the length of
    the subrun-wise table; the run list has one entry per [True] of [mask];
    and [std_npe] has two entries of the length of the run list, so that
    [std_npe[1][i]] exists for every index of the last loop. *)
Theorem namespace_shapes (E : Externals) (D : Dtypes) (tb : Tables) :
  let T := dcheck_runsummary tb in
  let st := Nb.run E D tb in
  [/\ all (fun m => size m == size T) (run_masks st),
      all (fun c => size c == size T) [:: Nb.angular_distance st; Nb.rate_cosmics st],
      if convertible E T then
        [/\ Nb.utctime st = Some [seq time r | r <- T],
            Nb.no_moon st = Some [seq moon_altitude E (time r) <? 0 | r <- T]
          & Nb.moon_fraction st = Some [seq moon_illumination E (time r) | r <- T]]
      else
        [/\ Nb.utctime st = None, Nb.no_moon st = None
          & Nb.moon_fraction st = None],
      size (Nb.runselection st) = size (dcheck_cosmics tb)
      /\ size (Nb.run_list st) = count id (Nb.mask st)
    & size (Nb.std_npe st) = 2%N
      /\ all (fun s => size s == size (Nb.run_list st)) (Nb.std_npe st)].
Proof.
move=> T st; pose C := dcheck_cosmics tb.
pose rl := Subrun.run_list T (final_mask E D T).
have masksE : run_masks st
    = [:: Cut.ped_ok_mask T; Cut.source_mask E T; Cut.zenith_mask D T;
          Cut.ped_std_cut T; Cut.rate_mask D T;
          Cut.rate10_mask D T; Cut.rate30_mask D T; Cut.pix_rate_mask D T;
          final_mask E D T; pulse30_after E D T C (final_mask E D T)] by [].
have columnsE : [:: Nb.angular_distance st; Nb.rate_cosmics st]
    = [:: Cut.angular_distance E T; Cut.rate_cosmics D T] by [].
have selE : Nb.runselection st = Subrun.runselection C rl by [].
have stdE : Nb.std_npe st = Subrun.std_npe E D C rl by [].
have utcE : Nb.utctime st
    = if comprehension (fun x => if utc_date E x is Some _ then Some x else None)
                       [seq time r | r <- T] is Some ts then Some ts else None.
  by [].
have moonE : Nb.no_moon st
    = if Nb.utctime st is Some ts then Some [seq moon_altitude E t <? 0 | t <- ts]
      else None by [].
have fractionE : Nb.moon_fraction st
    = if Nb.utctime st is Some ts then Some [seq moon_illumination E t | t <- ts]
      else None by [].
rewrite moonE fractionE utcE utctime_comprehension {moonE fractionE utcE}.
rewrite masksE columnsE selE stdE run_run_list run_mask -/rl {masksE columnsE selE stdE}.
have sz_rl : size rl = count id (final_mask E D T).
  by rewrite /rl /Subrun.run_list size_mask // size_map size_final_mask.
split=> //.
- rewrite /pulse30_after pulse30_std_cutE final_maskE.
  rewrite source_maskE zenith_maskE rate_maskE pix_rate_maskE.
  by rewrite /Cut.ped_ok_mask /Cut.ped_std_cut /Cut.rate10_mask
             /Cut.rate30_mask /Cut.pulse_rate /= !size_map !eqxx.
- by rewrite /Cut.angular_distance /Cut.rate_cosmics /= !size_map !eqxx.
- by case: (convertible E T); split=> //; rewrite -map_comp.
- by rewrite /Subrun.runselection size_map.
by rewrite /Subrun.std_npe /Subrun.std_of_runs /= !size_map !eqxx.
Qed.

(** ** The pulse-30 cut and run numbers *)

(** X13: the pulse-30 cut has the length of the table; it depends on the
    run list only through which run numbers are in it, not on their order
    or repetition; with an empty run list it is [True] throughout; and rows
    of one run number get the same entry. *)
Theorem pulse30_by_run_number (E : Externals) (D : Dtypes) (T : seq RunRow)
    (C : seq Cosmics.row) (rl : seq nat) :
  let cut := Subrun.pulse30_std_cut E D T C rl in
  let runs := [seq runnumber r | r <- T] in
  [/\ size cut = size T,
      forall rl' : seq nat,
        rl =i rl' -> Subrun.pulse30_std_cut E D T C rl' = cut,
      Subrun.pulse30_std_cut E D T C [::] = nseq (size T) true
    & forall i j : nat,
        (i < size T)%N -> (j < size T)%N -> nth 0%N runs i = nth 0%N runs j ->
        nth true cut i = nth true cut j].
Proof.
move=> cut runs; rewrite /cut !pulse30_std_cutE; split.
- by rewrite size_map.
- by move=> rl' same; rewrite pulse30_std_cutE; apply: eq_map => r; rewrite same.
- by rewrite -/(np.full_true _) full_true_map; apply: eq_map.
move=> i j lt_i lt_j.
rewrite (map_comp (fun n => ~~ ((n \in rl) && unstable E D C n)) runnumber) -/runs.
by rewrite !(nth_map 0%N) ?size_map // => ->.
Qed.

(** ** The three series of the moon plots *)

Section MoonSeries.
Variable E : Externals.
Variable D : Dtypes.
Variable T : seq RunRow.

Lemma baseE :
  Moon.base E D T
  = [seq [&& Row.source_ok E r, Row.zenith_ok D r & Row.ped_ok r] | r <- T].
Proof.
rewrite /Moon.base source_maskE zenith_maskE /Cut.ped_ok_mask !and_map.
by apply: eq_map => r; rewrite andbA.
Qed.

Let base_ok (r : RunRow) := [&& Row.source_ok E r, Row.zenith_ok D r & Row.ped_ok r].

Lemma below_horizonE :
  Moon.below_horizon E D T = [seq base_ok r && Row.moon_below E r | r <- T].
Proof. by rewrite /Moon.below_horizon baseE /Cut.no_moon and_map. Qed.

Lemma above_horizonE :
  Moon.above_horizon E D T = [seq base_ok r && ~~ Row.moon_below E r | r <- T].
Proof. by rewrite /Moon.above_horizon baseE /Cut.no_moon invert_map and_map. Qed.

Lemma dimE :
  Moon.dim E D T
  = [seq base_ok r && ~~ Row.moon_below E r && Row.moon_dim E r | r <- T].
Proof.
rewrite /Moon.dim baseE /Cut.no_moon /Cut.moon_fraction invert_map -map_comp.
by rewrite !and_map.
Qed.

Lemma brightE :
  Moon.bright E D T
  = [seq base_ok r && ~~ Row.moon_below E r
         && (Cut.moon_fraction_limit <=? moon_illumination E (time r)) | r <- T].
Proof.
rewrite /Moon.bright baseE /Cut.no_moon /Cut.moon_fraction invert_map -map_comp.
by rewrite !and_map.
Qed.

Lemma count_split (A : Type) (a p : pred A) (s : seq A) :
  (count (fun x => a x && p x) s + count (fun x => a x && ~~ p x) s)%N
  = count a s.
Proof.
elim: s => [|x s IH] //=; rewrite -IH.
by case: (a x); case: (p x); rewrite /= ?add0n ?addn0 ?add1n ?addnS.
Qed.

Lemma count_split_le (A : Type) (a p q : pred A) (s : seq A) :
  (forall x, ~~ (p x && q x)) ->
  (count (fun x => a x && p x) s + count (fun x => a x && q x) s <= count a s)%N.
Proof.
move=> excl; elim: s => [|x s IH] //=.
have := excl x; case: (a x); case: (p x); case: (q x) => //= _;
  rewrite ?add0n ?add1n ?addnS ?addn0 ?ltnS //; exact: leqW.
Qed.

Lemma count_split_eq (A : Type) (a p q ok : pred A) (s : seq A) :
  (forall x, ~~ (p x && q x)) -> (forall x, ok x -> p x || q x) ->
  all ok s ->
  (count (fun x => a x && p x) s + count (fun x => a x && q x) s)%N = count a s.
Proof.
move=> excl cover; elim: s => [|x s IH] //= /andP[ok_x /IH <-].
have := excl x; have := cover x ok_x.
by case: (a x); case: (p x); case: (q x) => //= _ _; rewrite ?add0n ?add1n ?addnS ?addn0.
Qed.

End MoonSeries.

(** X14: of the rows the base mask of the moon plots keeps, each is in
    exactly one of the series "moon below horizon" and "moon above
    horizon"; the two series that split the latter at the illumination
    limit never share a row, and together they hold every row of it when no
    illuminated fraction is NaN (a row with a NaN fraction is in neither). *)
Theorem moon_series_split (E : Externals) (D : Dtypes) (T : seq RunRow) :
  [/\ (count id (Moon.below_horizon E D T) + count id (Moon.above_horizon E D T))%N
      = count id (Moon.base E D T),
      (count id (Moon.dim E D T) + count id (Moon.bright E D T)
       <= count id (Moon.above_horizon E D T))%N,
      all (fun f => ~~ is_nan f) (Cut.moon_fraction E T) ->
      (count id (Moon.dim E D T) + count id (Moon.bright E D T))%N
      = count id (Moon.above_horizon E D T)
    & forall k : nat,
        ~~ (nth false (Moon.dim E D T) k && nth false (Moon.bright E D T) k)
        /\ ~~ (nth false (Moon.below_horizon E D T) k
               && nth false (Moon.above_horizon E D T) k)].
Proof.
rewrite below_horizonE above_horizonE dimE brightE baseE !count_map.
split.
- exact: count_split.
- by apply: count_split_le => r; exact: ltb_leb_excl.
- rewrite /Cut.moon_fraction all_map => no_nan.
  apply: (count_split_eq _ _ _ no_nan) => r; first exact: ltb_leb_excl.
  by move=> /= ok_r; exact: ltb_or_leb.
move=> k; split.
  elim: T k => [|r rows IH] [|k] //=.
  by have := ltb_leb_excl (moon_illumination E (time r)) Cut.moon_fraction_limit;
     rewrite /Row.moon_dim; case: (_ <? _); case: (_ <=? _); rewrite ?andbF.
elim: T k => [|r rows IH] [|k] //=.
by case: (Row.moon_below E r); rewrite ?andbF.
Qed.

(** ** Running the cells again *)

Section Rerun.
Variable E : Externals.
Variable D : Dtypes.

(** The cells on any namespace, variable by variable: all but three are
    computed afresh from the tables. *)
Lemma utctime_cells (s : Nb.state) :
  Nb.utctime (Nb.run_cells (Nb.cells E D) s)
  = if comprehension (fun x => if utc_date E x is Some _ then Some x else None)
                     [seq time r | r <- dcheck_runsummary (Nb.tables s)]
    is Some ts then Some ts else Nb.utctime s.
Proof. by case: s. Qed.

Lemma no_moon_cells (s : Nb.state) :
  Nb.no_moon (Nb.run_cells (Nb.cells E D) s)
  = if Nb.utctime (Nb.run_cells (Nb.cells E D) s) is Some ts
    then Some [seq moon_altitude E t <? 0 | t <- ts] else Nb.no_moon s.
Proof. by case: s. Qed.

Lemma moon_fraction_cells (s : Nb.state) :
  Nb.moon_fraction (Nb.run_cells (Nb.cells E D) s)
  = if Nb.utctime (Nb.run_cells (Nb.cells E D) s) is Some ts
    then Some [seq moon_illumination E t | t <- ts] else Nb.moon_fraction s.
Proof. by case: s. Qed.

Lemma stdout_cells (s : Nb.state) :
  Nb.stdout (Nb.run_cells (Nb.cells E D) s)
  = Nb.stdout s ++ Nb.stdout (Nb.run E D (Nb.tables s)).
Proof.
case: s => tb x1 x2 x3 x4 x5 x6 x7 x8 x9 x10 x11 x12 x13 x14 x15 x16 x17 x18 out.
set s0 := Nb.Mk _ _ _ _ _ _ _ _ _ _ _ _ _ _ _ _ _ _ _ _.
have -> : Nb.tables s0 = tb by [].
have -> : Nb.stdout s0 = out by [].
by rewrite run_stdout !catA.
Qed.

End Rerun.

(** X15: run a second time in notebook order on the namespace the first run
    left, the cells write the same lines again and leave the variables as
    they were: [utctime], [no_moon] and [moon_fraction] are bound after the
    second run exactly when they were after the first, with the same values,
    whether or not the time stamps convert; and the masks are those of the
    first run. *)
Theorem rerun_same_variables (E : Externals) (D : Dtypes) (tb : Tables) :
  let st := Nb.run E D tb in
  let again := Nb.run_cells (Nb.cells E D) st in
  [/\ Nb.stdout again = Nb.stdout st ++ Nb.stdout st,
      Nb.utctime again = Nb.utctime st,
      Nb.no_moon again = Nb.no_moon st,
      Nb.moon_fraction again = Nb.moon_fraction st
    & run_masks again = run_masks st /\ seven_masks again = seven_masks st].
Proof.
move=> st again.
have utc : Nb.utctime again = Nb.utctime st.
  rewrite /again utctime_cells run_tables.
  have -> : Nb.utctime st
      = if comprehension (fun x => if utc_date E x is Some _ then Some x else None)
                         [seq time r | r <- dcheck_runsummary tb]
        is Some ts then Some ts else None by [].
  by case: (comprehension _ _).
split=> //.
- by rewrite /again stdout_cells run_tables.
- rewrite /again no_moon_cells -/again utc.
  have -> : Nb.no_moon st
      = if Nb.utctime st is Some ts then Some [seq moon_altitude E t <? 0 | t <- ts]
        else None by [].
  by case: (Nb.utctime st).
rewrite /again moon_fraction_cells -/again utc.
  have -> : Nb.moon_fraction st
      = if Nb.utctime st is Some ts then Some [seq moon_illumination E t | t <- ts]
        else None by [].
  by case: (Nb.utctime st).
Qed.

(** ** A report that raises at a date *)

(** X16: with [by_date], when some masked time stamp has no date,
    [print_runs] raises after it has written the count, the observation
    time, the run array and two blank lines, and before any date line. *)
Theorem print_runs_raises_after_array (E : Externals) (T : seq RunRow)
    (m : bitseq) :
  size m = size T ->
  ~~ all (fun r => isSome (utc_date E (time r - 0.5 * 86400))) (mask m T) ->
  print_runs E T m true
  = ([:: Wobble_runs (count id m);
         Observation_time (np_sum E [seq elapsed_time r | r <- mask m T] / 3600);
         Blank;
         Run_array [seq runnumber r | r <- mask m T]
                   (np.array2string [seq runnumber r | r <- mask m T]);
         Blank; Blank],
     Raised).
Proof.
move=> sz; rewrite print_runsE //=.
rewrite -(all_map (fun r => time r) (fun t => isSome (utc_date E (t - 0.5 * 86400)))).
by rewrite -comprehension_all; case: (comprehension _ _).
Qed.

(** ** The further properties on demonstration data *)

Lemma load_tables_completes_witness :
  ~~ has usable [:: Demo.night_without_pedestals]
  /\ load_tables [:: Demo.night_without_pedestals] = None.
Proof.
split; first by [].
by have [] := @load_tables_completes [:: Demo.night_without_pedestals] isT.
Defined.

Lemma print_runs_raises_after_array_witness :
  size [:: true] = size Example.rows_without_time
  /\ ~~ all (fun r => isSome (utc_date Demo.dark (time r - 0.5 * 86400)))
            (mask [:: true] Example.rows_without_time)
  /\ run_arrays (print_runs Demo.dark Example.rows_without_time [:: true] true).1
     = [:: [:: 2960%N]].
Proof.
split; first by []. split; first by [].
by rewrite (@print_runs_raises_after_array Demo.dark Example.rows_without_time
              [:: true] (erefl _) isT).
Defined.

Lemma print_runs_wrong_length_witness :
  size [:: true] != size Demo.rows
  /\ print_runs Demo.dark Demo.rows [:: true] true = ([:: Wobble_runs 1], Raised).
Proof.
split; first by [].
exact: (@print_runs_wrong_length Demo.dark Demo.rows [:: true] true isT).
Defined.

Lemma print_runs_nothing_selected_witness :
  size [:: false; false; false] = size Demo.rows
  /\ count id [:: false; false; false] = 0%N
  /\ (print_runs Demo.dark Demo.rows [:: false; false; false] true).2 = Returned.
Proof.
split; first by []. split; first by [].
by rewrite (@print_runs_nothing_selected Demo.dark Demo.rows
              [:: false; false; false] true (erefl _) (erefl _)).
Defined.

Lemma date_lines_are_nonempty_witness :
  size [:: true; false; true] = size Demo.rows
  /\ (size (date_groups (print_runs Demo.dark Demo.rows [:: true; false; true] true).1)
      <= count id [:: true; false; true])%N.
Proof.
split; first by [].
by have [] := @date_lines_are_nonempty Demo.dark Demo.rows [:: true; false; true]
                (erefl _).
Defined.

Lemma narrower_report_returns_witness :
  returned (print_runs Demo.dark Demo.rows
              (nth [::] (report_masks Demo.dark Demo.double Demo.rows) 1) true).2
  /\ returned (print_runs Demo.dark Demo.rows
                 (nth [::] (report_masks Demo.dark Demo.double Demo.rows) 6) true).2.
Proof.
have first : returned (print_runs Demo.dark Demo.rows
                         (nth [::] (report_masks Demo.dark Demo.double Demo.rows) 1) true).2.
  by vm_compute.
split; first exact: first.
by have [_ [_ later]] := narrower_report_returns Demo.dark Demo.double Demo.rows;
   apply: later first 6%N isT.
Defined.

Lemma nan_to_zero_only_nan_witness :
  ~~ np.isnan (num_flatfield Demo.run_2940)
  /\ nan_to_zero Demo.run_2940 = Demo.run_2940.
Proof.
split; first by [].
by have [unchanged _ _] := nan_to_zero_only_nan Demo.run_2940; apply: unchanged.
Defined.

Lemma discovery_order_witness :
  perm_eq [:: Example.path_20; Example.path_19] [:: Example.path_19; Example.path_20]
  /\ Files.load Example.read [:: Example.path_20; Example.path_19]
     = Files.load Example.read [:: Example.path_19; Example.path_20].
Proof.
split; first by [].
have [_ _ any_order] :=
  discovery_order Example.read [:: Example.path_20; Example.path_19].
by have [] := any_order [:: Example.path_19; Example.path_20] isT.
Defined.

Lemma selected_has_no_nan_witness :
  Row.selected Demo.dark Demo.double Demo.run_2940
  /\ all (fun x => ~~ is_nan x) (tested Demo.dark Demo.double Demo.run_2940).
Proof.
split; first by [].
exact: (@selected_has_no_nan Demo.dark Demo.double Demo.run_2940 isT).
Defined.

Lemma removed_runs_stay_out_witness :
  (0 < 6 < 7)%N
  /\ nth false
       (np.invert (Nb.ped_ok_mask
          (Nb.run Demo.dark Demo.double (Demo.tables_of Example.rows_without_pedestals [::])))) 0
  /\ ~~ nth false
        (nth [::] (report_masks Demo.dark Demo.double Example.rows_without_pedestals) 6) 0.
Proof.
split; first by []. split; first by vm_compute.
have [_ _ out] :=
  removed_runs_stay_out Demo.dark Demo.double (Demo.tables_of Example.rows_without_pedestals [::]).
by apply: (out 6%N 0%N isT); vm_compute.
Defined.

Lemma pulse30_by_run_number_witness :
  (0 < size Example.rows_repeated)%N /\ (1 < size Example.rows_repeated)%N
  /\ nth 0%N [seq runnumber r | r <- Example.rows_repeated] 0
     = nth 0%N [seq runnumber r | r <- Example.rows_repeated] 1
  /\ nth true (Subrun.pulse30_std_cut Demo.dark Demo.double Example.rows_repeated
                 Demo.cosmics [:: 2934%N]) 0
     = nth true (Subrun.pulse30_std_cut Demo.dark Demo.double Example.rows_repeated
                   Demo.cosmics [:: 2934%N]) 1.
Proof.
split; first by []. split; first by []. split; first by [].
have [_ _ _ same] :=
  pulse30_by_run_number Demo.dark Demo.double Example.rows_repeated Demo.cosmics [:: 2934%N].
exact: (same 0%N 1%N isT isT (erefl _)).
Defined.

Lemma moon_series_split_witness :
  all (fun f => ~~ is_nan f) (Cut.moon_fraction (Demo.externals 40 0.9) Demo.rows)
  /\ (count id (Moon.dim (Demo.externals 40 0.9) Demo.double Demo.rows)
      + count id (Moon.bright (Demo.externals 40 0.9) Demo.double Demo.rows))%N
     = count id (Moon.above_horizon (Demo.externals 40 0.9) Demo.double Demo.rows).
Proof.
split; first by [].
have [_ _ cover _] := moon_series_split (Demo.externals 40 0.9) Demo.double Demo.rows.
exact: cover.
Defined.
